(** * apod_desktop.py: the APOD image cache, embedded and checked

    A shallow embedding of [apod_desktop.py].  The script downloads NASA's
    Astronomy Picture of the Day, fingerprints the bytes with SHA-256,
    consults a SQLite table [apod_images], writes the image under the images
    directory and records a row for it.

    Layout of this file:
    - [SHA256]: hashlib's [sha256(...).hexdigest()], from FIPS 180-4;
    - [Sqlite]: the fragment of SQLite the script's three statements use;
    - [OsPath] and [NtPath]: the [os.path] functions the script calls;
    - [Strptime]: [datetime.strptime(s, '%Y-%m-%d')] and [date.isoformat],
      over the decimal digits of Unicode ([Decimals], [Unicode]);
    - [Apod]: the script itself, function by function, over an explicit
      world (argv, clock, directory tree, file names, files, databases,
      network, stdout);
    - the properties, one per numbered claim. *)

From Stdlib Require Import ZArith List String Ascii DecimalString Lia.
From Stdlib.Strings Require Import Byte.
From stdpp Require Import base option list gmap strings.

Open Scope Z_scope.

(** Python [bytes]. *)
Abbreviation bytes := (list byte).

(* ===================================================================== *)
(** ** SHA-256 (hashlib.sha256), after FIPS 180-4                         *)
(* ===================================================================== *)

Module SHA256.

(** 32-bit words are integers kept in [0, 2^32) by explicit wrap-around. *)
Definition wrap32 (x : Z) : Z := x mod 2 ^ 32.
Definition add32 (x y : Z) : Z := wrap32 (x + y).
Definition not32 (x : Z) : Z := Z.lxor x (2 ^ 32 - 1).
Definition rotr (n x : Z) : Z :=
  Z.lor (Z.shiftr x n) (wrap32 (Z.shiftl x (32 - n))).
Definition shr (n x : Z) : Z := Z.shiftr x n.

Definition Ch (x y z : Z) : Z := Z.lxor (Z.land x y) (Z.land (not32 x) z).
Definition Maj (x y z : Z) : Z :=
  Z.lxor (Z.lxor (Z.land x y) (Z.land x z)) (Z.land y z).
Definition bigsigma0 (x : Z) : Z := Z.lxor (Z.lxor (rotr 2 x) (rotr 13 x)) (rotr 22 x).
Definition bigsigma1 (x : Z) : Z := Z.lxor (Z.lxor (rotr 6 x) (rotr 11 x)) (rotr 25 x).
Definition smallsigma0 (x : Z) : Z := Z.lxor (Z.lxor (rotr 7 x) (rotr 18 x)) (shr 3 x).
Definition smallsigma1 (x : Z) : Z := Z.lxor (Z.lxor (rotr 17 x) (rotr 19 x)) (shr 10 x).

(** The round constants are the first 32 fractional bits of the cube roots
    of the first 64 primes; the initial hash value, of the square roots of
    the first 8.  Both tables are computed from that definition. *)
Definition is_prime (n : Z) : bool :=
  (1 <? n) && forallb (fun d => negb (n mod d =? 0))
                      (map Z.of_nat (seq 2 (Z.to_nat n - 2))).

Definition first_primes : list Z :=
  Eval vm_compute in filter is_prime (map Z.of_nat (seq 2 310)).

(** Integer cube root below [2^36], one bit at a time from the top. *)
Definition icbrt (n : Z) : Z :=
  fold_left (fun r i => let c := r + 2 ^ Z.of_nat i in
                        if c * c * c <=? n then c else r)
            (rev (seq 0 36)) 0.

Definition K : list Z :=
  Eval vm_compute in map (fun p => wrap32 (icbrt (p * 2 ^ 96))) first_primes.

Record hstate : Type := HState
  { ha : Z; hb : Z; hc : Z; hd : Z; he : Z; hf : Z; hg : Z; hh : Z }.

Definition frac_sqrt (p : Z) : Z := wrap32 (Z.sqrt (p * 2 ^ 64)).

Definition H0 : hstate :=
  Eval vm_compute in
    HState (frac_sqrt 2) (frac_sqrt 3) (frac_sqrt 5) (frac_sqrt 7)
           (frac_sqrt 11) (frac_sqrt 13) (frac_sqrt 17) (frac_sqrt 19).

(** Padding: a single 1 bit, zeros up to 56 mod 64, then the bit length as
    a big-endian 64-bit integer. *)
Definition be_bytes (n : nat) (x : Z) : list Z :=
  map (fun i => (x / 2 ^ (8 * Z.of_nat i)) mod 256) (rev (seq 0 n)).

Definition pad (msg : list Z) : list Z :=
  let len := Z.of_nat (length msg) in
  msg ++ 128 :: repeat 0 (Z.to_nat ((55 - len) mod 64)) ++ be_bytes 8 (8 * len).

Fixpoint chunks {A} (fuel size : nat) (l : list A) : list (list A) :=
  match fuel with
  | O => []
  | S fuel' =>
      match l with
      | [] => []
      | _ => firstn size l :: chunks fuel' size (skipn size l)
      end
  end.

Definition be_word (bs : list Z) : Z := fold_left (fun acc b => acc * 256 + b) bs 0.

Definition block_words (block : list Z) : list Z :=
  map be_word (chunks 16 4 block).

(** Message schedule: sixteen block words extended to sixty-four. *)
Definition schedule_step (w : list Z) (t : nat) : list Z :=
  let at_ k := nth (t - k) w 0 in
  w ++ [add32 (add32 (smallsigma1 (at_ 2%nat)) (at_ 7%nat))
              (add32 (smallsigma0 (at_ 15%nat)) (at_ 16%nat))].

Definition schedule (m : list Z) : list Z :=
  fold_left schedule_step (seq 16 48) m.

Definition round (s : hstate) (kw : Z * Z) : hstate :=
  let '(k, w) := kw in
  let t1 := add32 (add32 (add32 (add32 (hh s) (bigsigma1 (he s)))
                                (Ch (he s) (hf s) (hg s))) k) w in
  let t2 := add32 (bigsigma0 (ha s)) (Maj (ha s) (hb s) (hc s)) in
  HState (add32 t1 t2) (ha s) (hb s) (hc s) (add32 (hd s) t1) (he s) (hf s) (hg s).

Definition add_state (s t : hstate) : hstate :=
  HState (add32 (ha s) (ha t)) (add32 (hb s) (hb t))
         (add32 (hc s) (hc t)) (add32 (hd s) (hd t))
         (add32 (he s) (he t)) (add32 (hf s) (hf t))
         (add32 (hg s) (hg t)) (add32 (hh s) (hh t)).

Definition compress (s : hstate) (block : list Z) : hstate :=
  add_state s (fold_left round (combine K (schedule (block_words block))) s).

Definition byte_val (b : byte) : Z := Z.of_N (Byte.to_N b).

Definition digest (msg : bytes) : hstate :=
  let padded := pad (map byte_val msg) in
  fold_left compress (chunks (length padded) 64 padded) H0.

(** [hexdigest]: eight words, each as eight lower-case hexadecimal digits. *)
Definition hex_digit (n : Z) : ascii :=
  match n with
  | 0 => "0" | 1 => "1" | 2 => "2" | 3 => "3" | 4 => "4" | 5 => "5"
  | 6 => "6" | 7 => "7" | 8 => "8" | 9 => "9" | 10 => "a" | 11 => "b"
  | 12 => "c" | 13 => "d" | 14 => "e" | _ => "f"
  end%char.

Definition nibble (i : Z) (x : Z) : ascii := hex_digit ((x / 16 ^ i) mod 16).

Definition hex32 (x : Z) (rest : string) : string :=
  String (nibble 7 x) (String (nibble 6 x) (String (nibble 5 x) (String (nibble 4 x)
  (String (nibble 3 x) (String (nibble 2 x) (String (nibble 1 x) (String (nibble 0 x)
  rest))))))).

Definition hex_of_state (s : hstate) : string :=
  hex32 (ha s) (hex32 (hb s) (hex32 (hc s) (hex32 (hd s)
  (hex32 (he s) (hex32 (hf s) (hex32 (hg s) (hex32 (hh s) ""))))))).

Definition hexdigest (msg : bytes) : string := hex_of_state (digest msg).

End SHA256.

(* ===================================================================== *)
(** ** The SQLite fragment behind the script's three statements           *)
(* ===================================================================== *)

Module Sqlite.

Inductive value : Type :=
  | Null
  | Integer (z : Z)
  | Text (s : string).

Definition value_eqb (a b : value) : bool :=
  match a, b with
  | Null, Null => true
  | Integer x, Integer y => x =? y
  | Text s, Text t => String.eqb s t
  | _, _ => false
  end.

(** Declared column types; [TEXT] is the only one the script declares. *)
Inductive affinity : Type := TEXT | BLOB.

Record column : Type := Column
  { col_name : string; col_affinity : affinity; col_unique : bool }.

Record table : Type := Table
  { tbl_columns : list column; tbl_rows : list (list value) }.

(** A database file: its tables by name. *)
Abbreviation database := (gmap string table).

Inductive error : Type :=
  | OperationalError (msg : string)
  | IntegrityError (msg : string).

(** Decimal rendering of an integer, as SQLite's cast to text and Python's
    [str] both print it. *)
Definition z_to_string (z : Z) : string := NilZero.string_of_int (Z.to_int z).

(** A column with TEXT affinity stores numbers in their text form. *)
Definition apply_affinity (a : affinity) (v : value) : value :=
  match a, v with
  | TEXT, Integer z => Text (z_to_string z)
  | _, _ => v
  end.

(** Truth of a value used as a WHERE condition: NULL is not true, a number
    is true when nonzero, a text is read as the number its longest numeric
    prefix spells (blanks, sign, digits, fraction).  A prefix with a nonzero
    mantissa counts as nonzero: exponents that underflow are not modelled. *)
Definition is_digit (c : ascii) : bool :=
  let n := nat_of_ascii c in (48 <=? n)%nat && (n <=? 57)%nat.

Definition is_blank (c : ascii) : bool :=
  let n := nat_of_ascii c in (n =? 32)%nat || ((9 <=? n)%nat && (n <=? 13)%nat).

Fixpoint digits_nonzero (s : list ascii) : bool * list ascii :=
  match s with
  | c :: s' =>
      if is_digit c then
        let '(nz, rest) := digits_nonzero s' in
        (negb (Ascii.eqb c "0") || nz, rest)
      else (false, s)
  | [] => (false, [])
  end.

Fixpoint drop_blanks (s : list ascii) : list ascii :=
  match s with
  | c :: s' => if is_blank c then drop_blanks s' else s
  | [] => []
  end.

Definition drop_sign (s : list ascii) : list ascii :=
  match s with
  | c :: s' => if Ascii.eqb c "-" || Ascii.eqb c "+" then s' else s
  | [] => []
  end.

Definition text_is_true (s : string) : bool :=
  let '(nz_int, rest) :=
    digits_nonzero (drop_sign (drop_blanks (list_ascii_of_string s))) in
  match rest with
  | c :: frac => if Ascii.eqb c "." then nz_int || fst (digits_nonzero frac) else nz_int
  | [] => nz_int
  end.

Definition is_true (v : value) : bool :=
  match v with
  | Null => false
  | Integer z => negb (z =? 0)
  | Text s => text_is_true s
  end.

Fixpoint column_index (name : string) (cols : list column) : option nat :=
  match cols with
  | [] => None
  | c :: cols' =>
      if String.eqb (col_name c) name then Some O
      else S <$> column_index name cols'
  end.

Definition field (i : nat) (row : list value) : value := nth i row Null.

(** CREATE TABLE IF NOT EXISTS name (columns) *)
Definition create_table_if_not_exists
    (name : string) (cols : list column) (db : database) : database :=
  match db !! name with
  | Some _ => db
  | None => <[name := Table cols []]> db
  end.

(** The value a new row gets in column [c]: the bound parameter of the
    INSERT's column list with that name, NULL when the column is not listed. *)
Fixpoint bound_value (names : list string) (params : list value) (c : string) : value :=
  match names, params with
  | n :: names', v :: params' =>
      if String.eqb n c then v else bound_value names' params' c
  | _, _ => Null
  end.

Definition new_row (cols : list column) (names : list string) (params : list value)
    : list value :=
  map (fun c => apply_affinity (col_affinity c) (bound_value names params (col_name c)))
      cols.

(** A UNIQUE column refuses a value (other than NULL) that a row already holds. *)
Definition violates_unique (cols : list column) (rows : list (list value))
    (row : list value) : bool :=
  existsb
    (fun ic : nat * column =>
       let '(i, c) := ic in
       col_unique c
       && negb (value_eqb (field i row) Null)
       && existsb (fun r => value_eqb (field i r) (field i row)) rows)
    (combine (seq 0 (length cols)) cols).

(** INSERT INTO name (names) VALUES (?, ..., ?) with [params] bound. *)
Definition insert (name : string) (names : list string) (params : list value)
    (db : database) : error + database :=
  match db !! name with
  | None => inl (OperationalError ("no such table: " ++ name))
  | Some t =>
      if negb (length names =? length params)%nat then
        inl (OperationalError "wrong number of bindings")
      else if negb (forallb (fun n => bool_decide (is_Some (column_index n (tbl_columns t)))) names) then
        inl (OperationalError "no such column")
      else
        let row := new_row (tbl_columns t) names params in
        if violates_unique (tbl_columns t) (tbl_rows t) row then
          inl (IntegrityError "UNIQUE constraint failed")
        else inr (<[name := Table (tbl_columns t) (tbl_rows t ++ [row])]> db)
  end.

(** SELECT col FROM name WHERE cond_col: the rows whose [cond_col] is true,
    each as a one-field tuple, in table order. *)
Definition select_where (col name cond_col : string) (db : database)
    : error + list (list value) :=
  match db !! name with
  | None => inl (OperationalError ("no such table: " ++ name))
  | Some t =>
      match column_index col (tbl_columns t), column_index cond_col (tbl_columns t) with
      | Some i, Some j =>
          inr (map (fun r => [field i r])
                   (filter (fun r => is_true (field j r) = true) (tbl_rows t)))
      | _, _ => inl (OperationalError "no such column")
      end
  end.

End Sqlite.

(* ===================================================================== *)
(** ** os.path                                                            *)
(* ===================================================================== *)

(** The three [os.path] functions the script calls.  [os.path] is [ntpath]
    on Windows and [posixpath] elsewhere; the script is written against the
    interface. *)
Class OsPath : Type := {
  normpath : string -> string;
  basename : string -> string;
  join : string -> string -> string
}.

(** [ntpath], the implementation on the platform the script targets (it
    calls [ctypes.windll]). *)
Module NtPath.

Definition sep : ascii := "\".
Definition altsep : ascii := "/".
Definition colon : ascii := ":".

Definition is_sep (c : ascii) : bool := Ascii.eqb c sep || Ascii.eqb c altsep.

Definition chars_eqb (a b : list ascii) : bool :=
  String.eqb (string_of_list_ascii a) (string_of_list_ascii b).

(** [s.find(c, start)] *)
Fixpoint find_from (c : ascii) (start : nat) (s : list ascii) : option nat :=
  match s with
  | [] => None
  | x :: s' =>
      match start with
      | S n => S <$> find_from c n s'
      | O => if Ascii.eqb x c then Some O else S <$> find_from c O s'
      end
  end.

(** [s.split(c)] *)
Fixpoint split_on (c : ascii) (s : list ascii) : list (list ascii) :=
  match s with
  | [] => [[]]
  | x :: s' =>
      match split_on c s' with
      | cur :: more => if Ascii.eqb x c then [] :: cur :: more else (x :: cur) :: more
      | [] => [[x]]
      end
  end.

(** [c.join(comps)] *)
Fixpoint join_with (c : ascii) (comps : list (list ascii)) : list ascii :=
  match comps with
  | [] => []
  | [x] => x
  | x :: rest => x ++ c :: join_with c rest
  end.

Fixpoint lstrip (c : ascii) (s : list ascii) : list ascii :=
  match s with
  | x :: s' => if Ascii.eqb x c then lstrip c s' else s
  | [] => []
  end.

Definition starts_with (p s : list ascii) : bool :=
  chars_eqb (firstn (length p) s) p.

Definition slashes_to_sep (p : list ascii) : list ascii :=
  map (fun c => if Ascii.eqb c altsep then sep else c) p.

Definition to_lower (c : ascii) : ascii :=
  let n := nat_of_ascii c in
  if (65 <=? n)%nat && (n <=? 90)%nat then ascii_of_nat (n + 32) else c.

Definition splitdrive (p : list ascii) : list ascii * list ascii :=
  if (2 <=? length p)%nat then
    let normp := slashes_to_sep p in
    if chars_eqb (firstn 2 normp) [sep; sep]
       && negb (chars_eqb (firstn 1 (skipn 2 normp)) [sep])
    then
      match find_from sep 2 normp with
      | None => ([], p)
      | Some index =>
          match find_from sep (index + 1) normp with
          | Some index2 =>
              if (index2 =? index + 1)%nat then ([], p)
              else (firstn index2 p, skipn index2 p)
          | None => (p, [])
          end
      end
    else if chars_eqb (firstn 1 (skipn 1 normp)) [colon] then (firstn 2 p, skipn 2 p)
    else ([], p)
  else ([], p).

(** The component loop of [normpath]; [done] is the part of [comps] before
    index [i], last component first. *)
Fixpoint collapse (prefix_ends_sep : bool) (done todo : list (list ascii))
    : list (list ascii) :=
  match todo with
  | [] => rev done
  | c :: todo' =>
      if chars_eqb c [] || chars_eqb c ["."%char] then
        collapse prefix_ends_sep done todo'
      else if chars_eqb c ["."%char; "."%char] then
        match done with
        | prev :: done' =>
            if negb (chars_eqb prev ["."%char; "."%char]) then
              collapse prefix_ends_sep done' todo'
            else collapse prefix_ends_sep (c :: done) todo'
        | [] =>
            if prefix_ends_sep then collapse prefix_ends_sep done todo'
            else collapse prefix_ends_sep (c :: done) todo'
        end
      else collapse prefix_ends_sep (c :: done) todo'
  end.

Definition normpath_chars (path : list ascii) : list ascii :=
  if starts_with [sep; sep; "."%char; sep] path
     || starts_with [sep; sep; "?"%char; sep] path
  then path
  else
    let '(drive, rest) := splitdrive (slashes_to_sep path) in
    let '(prefix, rest) :=
      if starts_with [sep] rest then (drive ++ [sep], lstrip sep rest)
      else (drive, rest) in
    let comps :=
      collapse (starts_with [sep] (rev prefix)) [] (split_on sep rest) in
    let comps :=
      match prefix, comps with
      | [], [] => [["."%char]]
      | _, _ => comps
      end in
    prefix ++ join_with sep comps.

(** [split(p)[1]]: what follows the last separator after the drive. *)
Fixpoint tail_after_sep (acc p : list ascii) : list ascii :=
  match p with
  | [] => rev acc
  | c :: p' => if is_sep c then tail_after_sep [] p' else tail_after_sep (c :: acc) p'
  end.

Definition basename_chars (p : list ascii) : list ascii :=
  tail_after_sep [] (snd (splitdrive p)).

Definition join_chars (path p : list ascii) : list ascii :=
  let '(result_drive, result_path) := splitdrive path in
  let '(p_drive, p_path) := splitdrive p in
  let '(result_drive, result_path) :=
    if match p_path with c :: _ => is_sep c | [] => false end then
      (match p_drive, result_drive with
       | [], _ :: _ => result_drive
       | _, _ => p_drive
       end, p_path)
    else
      let differs := negb (chars_eqb p_drive []) && negb (chars_eqb p_drive result_drive) in
      if differs && negb (chars_eqb (map to_lower p_drive) (map to_lower result_drive))
      then (p_drive, p_path)
      else
        let result_drive := if differs then p_drive else result_drive in
        let result_path :=
          match rev result_path with
          | c :: _ => if is_sep c then result_path else result_path ++ [sep]
          | [] => result_path
          end in
        (result_drive, result_path ++ p_path) in
  match result_path, rev result_drive with
  | c :: _, d :: _ =>
      if negb (is_sep c) && negb (Ascii.eqb d colon)
      then result_drive ++ sep :: result_path
      else result_drive ++ result_path
  | _, _ => result_drive ++ result_path
  end.

Definition lift1 (f : list ascii -> list ascii) (s : string) : string :=
  string_of_list_ascii (f (list_ascii_of_string s)).

#[export] Instance ntpath : OsPath := {
  normpath := lift1 normpath_chars;
  basename := lift1 basename_chars;
  join a b := string_of_list_ascii
                (join_chars (list_ascii_of_string a) (list_ascii_of_string b))
}.

End NtPath.

(* ===================================================================== *)
(** ** datetime: strptime with '%Y-%m-%d', date.isoformat                 *)
(* ===================================================================== *)

Module Strptime.

Record date : Type := Date { year : Z; month : Z; day : Z }.

Definition is_leap (y : Z) : bool :=
  (y mod 4 =? 0) && (negb (y mod 100 =? 0) || (y mod 400 =? 0)).

Definition days_in_month (y m : Z) : Z :=
  match m with
  | 2 => if is_leap y then 29 else 28
  | 4 | 6 | 9 | 11 => 30
  | _ => 31
  end.

(** What the [date] constructor accepts. *)
Definition valid_date (d : date) : bool :=
  (1 <=? year d) && (year d <=? 9999)
  && (1 <=? month d) && (month d <=? 12)
  && (1 <=? day d) && (day d <=? days_in_month (year d) (month d)).

(** A character of the class [0-9] at the head of a text: its value and the
    text after it. *)
Definition ascii_digit (s : string) : option (Z * string) :=
  match s with
  | String c s' =>
      let n := nat_of_ascii c in
      if (48 <=? n)%nat && (n <=? 57)%nat then Some (Z.of_nat n - 48, s') else None
  | EmptyString => None
  end.

(** [strptime] compiles its format to a regular expression over [str]
    without the ASCII flag, so [\d] matches every decimal digit of Unicode,
    and [int] then reads each by its digit value.  Which characters those
    are is decided by the Unicode database of the interpreter: [decimal s]
    is the value of the decimal digit at the head of [s] and the text after
    it.  In every version the ASCII digits are decimal digits and no other
    ASCII character is. *)
Class Decimals : Type := {
  decimal : string -> option (Z * string);
  decimal_ascii : forall c s,
    (N_of_ascii c <? 128)%N = true -> decimal (String c s) = ascii_digit (String c s)
}.

Section Patterns.
Context {decimals : Decimals}.

(** The class [lo-hi] of ASCII digits. *)
Definition digit_in (lo hi : Z) (s : string) : option (Z * string) :=
  '(x, s') ← ascii_digit s;
  if (lo <=? x) && (x <=? hi) then Some (x, s') else None.

Definition literal (c : ascii) (s : string) : option string :=
  match s with
  | String x s' => if Ascii.eqb x c then Some s' else None
  | EmptyString => None
  end.

(** The directive %Y is the pattern \d\d\d\d, read by [int]. *)
Definition year_match (s : string) : option (Z * string) :=
  '(a, s) ← decimal s;
  '(b, s) ← decimal s;
  '(c, s) ← decimal s;
  '(d, s) ← decimal s;
  Some (1000 * a + 100 * b + 10 * c + d, s).

(** The directive %m is the pattern 1[0-2]|0[1-9]|[1-9]: the ways it matches
    at the head of [s], in the order the alternatives are tried. *)
Definition month_matches (s : string) : list (Z * string) :=
  omap id
    [ (s1 ← literal "1" s; '(y, r) ← digit_in 0 2 s1; Some (10 + y, r));
      (s1 ← literal "0" s; digit_in 1 9 s1);
      digit_in 1 9 s ].

(** The directive %d is the pattern 3[0-1]|[1-2]\d|0[1-9]|[1-9]| [1-9]. *)
Definition day_matches (s : string) : list (Z * string) :=
  omap id
    [ (s1 ← literal "3" s; '(y, r) ← digit_in 0 1 s1; Some (30 + y, r));
      ('(x, s1) ← digit_in 1 2 s; '(y, r) ← decimal s1; Some (10 * x + y, r));
      (s1 ← literal "0" s; digit_in 1 9 s1);
      digit_in 1 9 s;
      (s1 ← literal " " s; digit_in 1 9 s1) ].

(** [format_regex.match(data_string)] for '%Y-%m-%d': the first way, in
    backtracking order, in which year, '-', month, '-', day match at the
    start of the text; the date read and the text left over. *)
Definition match_format (s : string) : option (date * string) :=
  '(y, s) ← year_match s;
  s ← literal "-" s;
  head ('(m, s) ← month_matches s;
        match literal "-" s with
        | Some s => '(d, r) ← day_matches s; [(Date y m d, r)]
        | None => []
        end).

(** [datetime.strptime(s, '%Y-%m-%d')]: [None] stands for [ValueError],
    raised when the text does not match, when text is left over after the
    match, or when the fields name no calendar day. *)
Definition strptime (s : string) : option date :=
  match match_format s with
  | Some (d, EmptyString) => if valid_date d then Some d else None
  | _ => None
  end.

End Patterns.

Definition digit_char (n : Z) : ascii := ascii_of_nat (Z.to_nat (48 + n mod 10)).

(** [date.isoformat()], that is "%04d-%02d-%02d". *)
Definition isoformat (d : date) : string :=
  string_of_list_ascii
    [digit_char (year d / 1000); digit_char (year d / 100);
     digit_char (year d / 10); digit_char (year d); "-"%char;
     digit_char (month d / 10); digit_char (month d); "-"%char;
     digit_char (day d / 10); digit_char (day d)].

End Strptime.

(** The decimal digits of Unicode 14.0, the database of CPython 3.11, on
    text held as UTF-8. *)
Module Unicode.

(** The digit zero of each run of ten decimal digits (general category Nd):
    ASCII, Arabic-Indic, ..., fullwidth, ..., the mathematical digits, ... *)
Definition decimal_zeros : list N :=
  [48; 1632; 1776; 1984; 2406; 2534; 2662; 2790; 2918; 3046; 3174; 3302;
   3430; 3558; 3664; 3792; 3872; 4160; 4240; 6112; 6160; 6470; 6608; 6784;
   6800; 6992; 7088; 7232; 7248; 42528; 43216; 43264; 43472; 43504; 43600;
   44016; 65296; 66720; 68912; 69734; 69872; 69942; 70096; 70384; 70736;
   70864; 71248; 71360; 71472; 71904; 72016; 72784; 73040; 73120; 92768;
   92864; 93008; 120782; 120792; 120802; 120812; 120822; 123200; 123632;
   125264; 130032]%N.

Definition digit_value (cp : N) : option Z :=
  (fun z => Z.of_N (cp - z))
    <$> find (fun z => (z <=? cp)%N && (cp <? z + 10)%N) decimal_zeros.

(** A continuation byte 10xxxxxx: its six bits. *)
Definition continuation (s : string) : option (N * string) :=
  match s with
  | String c s' =>
      let b := N_of_ascii c in
      if ((128 <=? b) && (b <? 192))%N then Some ((b - 128)%N, s') else None
  | EmptyString => None
  end.

(** The code point at the head of a text; [None] for an empty text and for
    bytes that are not the UTF-8 form of a character. *)
Definition code_point (s : string) : option (N * string) :=
  match s with
  | EmptyString => None
  | String c s1 =>
      let b := N_of_ascii c in
      if (b <? 128)%N then Some (b, s1)
      else if ((194 <=? b) && (b <? 224))%N then
        '(x, s2) ← continuation s1;
        Some (((b - 192) * 64 + x)%N, s2)
      else if ((224 <=? b) && (b <? 240))%N then
        '(x, s2) ← continuation s1;
        '(y, s3) ← continuation s2;
        let cp := ((((b - 224) * 64 + x) * 64) + y)%N in
        if ((2048 <=? cp) && negb ((55296 <=? cp) && (cp <? 57344)))%N
        then Some (cp, s3) else None
      else if ((240 <=? b) && (b <? 245))%N then
        '(x, s2) ← continuation s1;
        '(y, s3) ← continuation s2;
        '(z, s4) ← continuation s3;
        let cp := ((((((b - 240) * 64 + x) * 64) + y) * 64) + z)%N in
        if ((65536 <=? cp) && (cp <? 1114112))%N then Some (cp, s4) else None
      else None
  end.

Definition decimal_utf8 (s : string) : option (Z * string) :=
  '(cp, r) ← code_point s;
  v ← digit_value cp;
  Some (v, r).

(** On ASCII text the decimal digits are the characters 0 to 9. *)
#[export] Instance unicode_decimals : Strptime.Decimals.
Proof.
  refine {| Strptime.decimal := decimal_utf8 |}.
  intros c s. destruct c as [[] [] [] [] [] [] [] []]; intros H;
    first [discriminate H | reflexivity].
Defined.

End Unicode.

(* ===================================================================== *)
(** ** The script                                                         *)
(* ===================================================================== *)

Module Apod.

#[export] Instance sql_value_eq_dec : EqDecision Sqlite.value.
Proof. solve_decision. Defined.

(** *** The world the script runs in *)

(** An HTTP response as [requests] presents it: status, body, and the body
    read as a JSON object of string fields ([None] when it is not one). *)
Record response : Type := Response
  { status_code : Z; content : bytes; json : option (gmap string string) }.

(** What an observer of the machine sees the script do. *)
Inductive event : Type :=
  | HttpGet (url : string)
  | DbConnect (path : string)
  | FileWrite (path : string)
  | SetWallpaper (path : string).

(** The machine the script runs on.

    - [file_of p] is the file the path [p] names, by the name the file
      system knows it by: two paths name the same file exactly when
      [file_of] agrees on them (on a file system that ignores case,
      [pic.jpg] and [PIC.JPG]; a path and a link to it).  It is [None] for a
      path that names no regular file, such as a device: what is written
      there is kept nowhere.
    - [files] holds the content of the regular files, by that name.
    - [writable p]: [open(p, 'wb')] succeeds.
    - [dbs] holds the databases as SQLite reads them, by the path handed to
      [sqlite3.connect]; a path not in [dbs] opens as an empty database.

    SQLite's own files (the database file and the journal, write-ahead log
    and shared-memory files it keeps beside it) are not in [files], and the
    statements SQLite runs neither read nor change [files]: the world
    describes runs in which the image is not stored under the name of one of
    those files.  The properties below about the image that a run stores
    carry that condition ([stored_apart], [image_apart]) as a hypothesis. *)
Record world : Type := World
  { argv : list string;
    today : Strptime.date;
    isdir : string -> bool;
    writable : string -> bool;
    http : string -> list (string * string) -> option response;
    file_of : string -> option string;
    files : gmap string bytes;
    dbs : gmap string Sqlite.database;
    stdout : list string;
    events : list event }.

Definition with_files (f : gmap string bytes) (w : world) : world :=
  World (argv w) (today w) (isdir w) (writable w) (http w) (file_of w) f (dbs w)
        (stdout w) (events w).
Definition with_dbs (d : gmap string Sqlite.database) (w : world) : world :=
  World (argv w) (today w) (isdir w) (writable w) (http w) (file_of w) (files w) d
        (stdout w) (events w).
Definition with_stdout (o : list string) (w : world) : world :=
  World (argv w) (today w) (isdir w) (writable w) (http w) (file_of w) (files w) (dbs w)
        o (events w).
Definition with_events (e : list event) (w : world) : world :=
  World (argv w) (today w) (isdir w) (writable w) (http w) (file_of w) (files w) (dbs w)
        (stdout w) e.
Definition with_file_of (f : string -> option string) (w : world) : world :=
  World (argv w) (today w) (isdir w) (writable w) (http w) f (files w) (dbs w)
        (stdout w) (events w).

(** *** Exceptions and the monad of the script's statements *)

Inductive exn : Type :=
  | SystemExit (msg : string)
  | ConnectionError (url : string)
  | JSONDecodeError
  | KeyError (key : string)
  | OSError (path : string)
  | DatabaseError (e : Sqlite.error).

Inductive result (A : Type) : Type :=
  | Ok (a : A)
  | Raise (e : exn).
Arguments Ok {A} a.
Arguments Raise {A} e.

Definition M (A : Type) : Type := world -> result A * world.

Definition ret {A} (a : A) : M A := fun w => (Ok a, w).
Definition raise {A} (e : exn) : M A := fun w => (Raise e, w).
Definition bind {A B} (m : M A) (k : A -> M B) : M B :=
  fun w => match m w with
           | (Ok a, w') => k a w'
           | (Raise e, w') => (Raise e, w')
           end.

Declare Scope apod_scope.
Delimit Scope apod_scope with apod.
Notation "'let*' x ':=' m 'in' k" := (bind m (fun x => k))
  (at level 10, x name, m at level 100, k at level 200) : apod_scope.
Notation "m '>>' k" := (bind m (fun _ => k))
  (at level 90, right associativity) : apod_scope.
Local Open Scope apod_scope.

(** [print(a, b, ...)]: the arguments separated by blanks, one line.
    Standard output is taken to accept any text (UTF-8, the default). *)
Definition print (args : list string) : M unit :=
  fun w => (Ok tt, with_stdout (stdout w ++ [String.concat " " args]) w).

Definition emit (e : event) : M unit :=
  fun w => (Ok tt, with_events (events w ++ [e]) w).

(** [sys.exit(msg)] *)
Definition exit {A} (msg : string) : M A := raise (SystemExit msg).

(** [requests.get(url, params=params)] *)
Definition requests_get (url : string) (params : list (string * string)) : M response :=
  emit (HttpGet url) >>
  fun w => match http w url params with
           | Some r => (Ok r, w)
           | None => (Raise (ConnectionError url), w)
           end.

(** [response.json()[key]] *)
Definition json_field (r : response) (key : string) : M string :=
  match json r with
  | None => raise JSONDecodeError
  | Some obj =>
      match obj !! key with
      | Some v => ret v
      | None => raise (KeyError key)
      end
  end.

(** [sqlite3.connect(path)]: the connection is named by the path of its
    file; a file that does not exist yet is an empty database. *)
Definition connect (db_path : string) : M string :=
  emit (DbConnect db_path) >> ret db_path.

Definition database_at (connection : string) (w : world) : Sqlite.database :=
  default ∅ (dbs w !! connection).

(** [cursor.execute] of a statement that changes the database, followed by
    [commit]; a failing statement changes nothing.  The journal SQLite
    writes and removes beside the database file while it does so is not
    kept in [files]. *)
Definition execute_update (connection : string)
    (stmt : Sqlite.database -> Sqlite.error + Sqlite.database) : M unit :=
  fun w => match stmt (database_at connection w) with
           | inr db' => (Ok tt, with_dbs (<[connection := db']> (dbs w)) w)
           | inl e => (Raise (DatabaseError e), w)
           end.

(** [cursor.execute] of a query followed by [fetchall]. *)
Definition execute_query (connection : string)
    (q : Sqlite.database -> Sqlite.error + list (list Sqlite.value))
    : M (list (list Sqlite.value)) :=
  fun w => match q (database_at connection w) with
           | inr rows => (Ok rows, w)
           | inl e => (Raise (DatabaseError e), w)
           end.

(** The files once [data] has been written at [path]: the file that
    [path] names is created or truncated and then holds exactly [data]; a
    path that names no regular file leaves the files as they are. *)
Definition stored (w : world) (path : string) (data : bytes) : gmap string bytes :=
  match file_of w path with
  | Some name => <[name := data]> (files w)
  | None => files w
  end.

(** [with open(path, 'wb') as handler: handler.write(data)] *)
Definition write_binary (path : string) (data : bytes) : M unit :=
  fun w => if writable w path
           then (Ok tt, with_files (stored w path data)
                                   (with_events (events w ++ [FileWrite path]) w))
           else (Raise (OSError path), w).

(** *** Python values compared in [image_already_in_db] *)

(** [results] is a list of row tuples, [image_sha256] a [str]; [==] between
    values of different types is [False], and [!=] is its negation. *)
Inductive pyval : Type :=
  | PyStr (s : string)
  | PyRows (rows : list (list Sqlite.value)).

Definition py_eq (a b : pyval) : bool :=
  match a, b with
  | PyStr s, PyStr t => bool_decide (s = t)
  | PyRows r, PyRows r' => bool_decide (r = r')
  | _, _ => false
  end.

Definition py_ne (a b : pyval) : bool := negb (py_eq a b).

(** Truth of a function result that is [True], [False] or, when the body
    falls off its end, [None]. *)
Definition truthy (r : option bool) : bool := default false r.

Definition py_len {A} (l : list A) : Z := Z.of_nat (length l).
Definition str_of_int : Z -> string := Sqlite.z_to_string.

(** *** The functions of apod_desktop.py *)

Section Script.
Context {os_path : OsPath} {decimals : Strptime.Decimals}.

Definition get_image_dir_path : M string :=
  fun w =>
    (if (2 <=? length (argv w))%nat then
       let dir_path := nth 1 (argv w) "" in
       if isdir w dir_path then
         print ["Images directory:"; dir_path] >> ret dir_path
       else
         print ["Error: Non-existent directory"; dir_path] >>
         exit "Script execution aborted"
     else
       print ["Error: Missing path parameter."] >>
       exit "Script execution aborted") w.

Definition get_apod_date : M string :=
  fun w =>
    (let* apod_date :=
       if (3 <=? length (argv w))%nat then
         let apod_date := nth 2 (argv w) "" in
         match Strptime.strptime apod_date with
         | Some _ => ret apod_date
         | None =>
             print ["Error: Incorrect date format; Should be YYYY-MM-DD"] >>
             exit "Script execution aborted"
         end
       else ret (Strptime.isoformat (today w)) in
     print ["APOD date:"; apod_date] >>
     ret apod_date) w.

Definition get_image_path (image_url dir_path : string) : string :=
  let new_image_url := basename (normpath image_url) in
  let _ := normpath dir_path in
  join dir_path new_image_url.

Definition get_apod_info (date : string) : M (gmap string string) :=
  let nasaAPI := "EMwuI4VvmRz1wy7lwzfzXwrXjektW832S3gBEEjN" in
  let apodURL := "https://api.nasa.gov/planetary/apod/" in
  let params := [("api_key", nasaAPI); ("date", date)] in
  let* response := requests_get apodURL params in
  (if status_code response =? 200 then
     print ["Getting APOD info from NASA... success!"]
   else
     print ["Close, but no cigar"; str_of_int (status_code response)]) >>
  let* url := json_field response "url" in
  ret {[ "url" := url ]}.

Definition print_apod_info (image_url image_path : string) (image_size : Z)
    (image_sha256 : string) : M unit :=
  print ["APOD Information:"] >>
  print ["     URL:"; image_url] >>
  print ["     File Path:"; image_path] >>
  print ["     File Size:"; str_of_int image_size; "bytes"] >>
  print ["     SHA-256:"; image_sha256].

Definition download_apod_image (image_url : string) : M bytes :=
  let* urlresponse := requests_get image_url [] in
  (if status_code urlresponse =? 200 then
     print ["downloading APOD from NASA... success!"]
   else
     print ["Close, but no cigar"; str_of_int (status_code urlresponse)]) >>
  ret (content urlresponse).

Definition save_image_file (image_msg : bytes) (image_path : string) : M unit :=
  write_binary image_path image_msg >>
  print ["Saving Image File... Success!"].

(** The columns of CREATE TABLE IF NOT EXISTS apod_images: four TEXT
    columns, none declared UNIQUE or PRIMARY KEY. *)
Definition apod_images_columns : list Sqlite.column :=
  [ Sqlite.Column "date" Sqlite.TEXT false;
    Sqlite.Column "full_path" Sqlite.TEXT false;
    Sqlite.Column "File_size" Sqlite.TEXT false;
    Sqlite.Column "SHA_256" Sqlite.TEXT false ].

Definition create_image_db (db_path : string) : M unit :=
  let* connection := connect db_path in
  execute_update connection
    (fun db => inr (Sqlite.create_table_if_not_exists "apod_images" apod_images_columns db)).

Definition add_image_to_db (db_path image_path : string) (image_size : Z)
    (image_sha256 : string) : M unit :=
  let* connect := connect db_path in
  let image_info :=
    [ Sqlite.Text db_path;
      Sqlite.Text image_path;
      Sqlite.Integer image_size;
      Sqlite.Text image_sha256 ] in
  execute_update connect
    (Sqlite.insert "apod_images" ["date"; "full_path"; "File_size"; "SHA_256"] image_info).

Definition image_already_in_db (db_path image_sha256 : string) : M (option bool) :=
  let* connection := connect db_path in
  let* results :=
    execute_query connection (Sqlite.select_where "SHA_256" "apod_images" "SHA_256") in
  if py_eq (PyRows results) (PyStr image_sha256) then
    print ["New Image already in database"] >> ret (Some true)
  else if py_ne (PyRows results) (PyStr image_sha256) then
    print ["New Image not in cache"] >> ret (Some false)
  else ret None.

Definition set_desktop_background_image (image_path : string) : M unit :=
  let set_wallpaper := image_path in
  emit (SetWallpaper set_wallpaper) >>
  print ["setting Desktop Wallpaper... Success!"].

Definition dict_get (d : gmap string string) (key : string) : M string :=
  match d !! key with
  | Some v => ret v
  | None => raise (KeyError key)
  end.

Definition main : M unit :=
  let* image_dir_path := get_image_dir_path in
  let db_path := join image_dir_path "apod_images.db" in
  let* apod_date := get_apod_date in
  create_image_db db_path >>
  let* apod_info_dict := get_apod_info apod_date in
  let* image_url := dict_get apod_info_dict "url" in
  let* image_msg := download_apod_image image_url in
  let image_sha256 := SHA256.hexdigest image_msg in
  let image_size := -1 + py_len image_msg in
  let image_path := get_image_path image_url image_dir_path in
  print_apod_info image_url image_path image_size image_sha256 >>
  let* cached := image_already_in_db db_path image_sha256 in
  (if negb (truthy cached) then
     save_image_file image_msg image_path >>
     add_image_to_db db_path image_path image_size image_sha256
   else ret tt) >>
  set_desktop_background_image image_path.

End Script.

End Apod.

(* ===================================================================== *)
(** ** Views of the world used to state the properties                    *)
(* ===================================================================== *)

Import Apod.
Local Open Scope apod_scope.

Definition apod_table (db_path : string) (w : world) : option Sqlite.table :=
  database_at db_path w !! "apod_images".

Definition catalog (db_path : string) (w : world) : list (list Sqlite.value) :=
  match apod_table db_path w with
  | Some t => Sqlite.tbl_rows t
  | None => []
  end.

Definition api_url : string := "https://api.nasa.gov/planetary/apod/".
Definition api_params (date : string) : list (string * string) :=
  [("api_key", "EMwuI4VvmRz1wy7lwzfzXwrXjektW832S3gBEEjN"); ("date", date)].

Definition insert_names : list string := ["date"; "full_path"; "File_size"; "SHA_256"].

Definition image_info (db_path image_path : string) (image_size : Z)
    (image_sha256 : string) : list Sqlite.value :=
  [ Sqlite.Text db_path; Sqlite.Text image_path;
    Sqlite.Integer image_size; Sqlite.Text image_sha256 ].

Definition select_digests : Sqlite.database -> Sqlite.error + list (list Sqlite.value) :=
  Sqlite.select_where "SHA_256" "apod_images" "SHA_256".

(** The date [main] asks the API for: the third argument when there is one,
    today otherwise. *)
Definition requested_date (w : world) : string :=
  if (3 <=? length (argv w))%nat then nth 2 (argv w) ""
  else Strptime.isoformat (today w).

(** The image URL in the API's answer for that date. *)
Definition named_url (w : world) : option string :=
  r ← http w api_url (api_params (requested_date w));
  obj ← json r;
  obj !! "url".

(** The content of the file that the path [p] names. *)
Definition file_at (w : world) (p : string) : option bytes :=
  name ← file_of w p; files w !! name.


(** The files SQLite works on for the database at [db_path]: the database
    file, its rollback journal, its write-ahead log and the shared-memory
    index of that log. *)
Definition sqlite_names (db_path : string) : list string :=
  [db_path; db_path ++ "-journal"; db_path ++ "-wal"; db_path ++ "-shm"]%string.

(** The file known as [name] is one of them. *)
Definition is_sqlite_file (w : world) (db_path name : string) : bool :=
  existsb (fun s => bool_decide (file_of w s = Some name)) (sqlite_names db_path).

(** The path [p] names a regular file that is none of SQLite's files for
    the database at [db_path]: what is written at [p] is kept, and SQLite
    leaves it alone. *)
Definition stored_apart (w : world) (db_path p : string) : bool :=
  match file_of w p with
  | Some name => negb (is_sqlite_file w db_path name)
  | None => false
  end.

(** [effect w w1 f d evs]: [w1] is [w] with files [f], databases [d] and
    the events [evs] added; what is printed is not tracked. *)
Record effect (w w1 : world) (f : gmap string bytes)
    (d : gmap string Sqlite.database) (evs : list event) : Prop := Effect {
  eff_argv : argv w1 = argv w;
  eff_today : today w1 = today w;
  eff_isdir : isdir w1 = isdir w;
  eff_writable : writable w1 = writable w;
  eff_http : http w1 = http w;
  eff_file_of : file_of w1 = file_of w;
  eff_files : files w1 = f;
  eff_dbs : dbs w1 = d;
  eff_events : events w1 = events w ++ evs
}.

(** A step that touches neither files nor databases. *)
Definition quiet (w w1 : world) (evs : list event) : Prop :=
  effect w w1 (files w) (dbs w) evs.

Section Views.
Context {os_path : OsPath}.

(** The images directory and database path a run of [main] works with. *)
Definition image_dir (w : world) : string := nth 1 (argv w) "".
Definition db_path_of (w : world) : string := join (image_dir w) "apod_images.db".

(** The table [main] finds once [create_image_db] has run. *)
Definition table_after_create (w : world) : Sqlite.database :=
  Sqlite.create_table_if_not_exists "apod_images" apod_images_columns
    (database_at (db_path_of w) w).

(** The row [main] records for the bytes [msg] downloaded from [url]. *)
Definition recorded_row (w : world) (t : Sqlite.table) (url : string) (msg : bytes)
    : list Sqlite.value :=
  Sqlite.new_row (Sqlite.tbl_columns t) insert_names
    (image_info (db_path_of w) (get_image_path url (image_dir w))
       (-1 + py_len msg) (SHA256.hexdigest msg)).

(** The image of this run is stored apart from SQLite's files: the path
    derived from the URL the API names is a regular file's, and not that of
    the database file or of a file SQLite keeps beside it. *)
Definition image_apart (w : world) : bool :=
  match named_url w with
  | Some url => stored_apart w (db_path_of w) (get_image_path url (image_dir w))
  | None => false
  end.

(** What a run of [main] that returns normally has done: [url] is the image
    URL the API gave, [msg] the bytes downloaded from it, [t] the table as
    it was before the row was added. *)
Record ingested (w w' : world) (url : string) (msg : bytes) (t : Sqlite.table)
    : Prop := Ingested {
  ing_argv : (2 <= length (argv w))%nat;
  ing_isdir : isdir w (image_dir w) = true;
  ing_api : named_url w = Some url;
  ing_download : exists r, http w url [] = Some r /\ msg = content r;
  ing_writable : writable w (get_image_path url (image_dir w)) = true;
  ing_table : table_after_create w !! "apod_images" = Some t;
  ing_effect :
    effect w w'
      (stored w (get_image_path url (image_dir w)) msg)
      (<[db_path_of w :=
          <["apod_images" :=
              Sqlite.Table (Sqlite.tbl_columns t)
                (Sqlite.tbl_rows t ++ [recorded_row w t url msg])]>
            (table_after_create w)]> (dbs w))
      [DbConnect (db_path_of w); HttpGet api_url; HttpGet url;
       DbConnect (db_path_of w); FileWrite (get_image_path url (image_dir w));
       DbConnect (db_path_of w); SetWallpaper (get_image_path url (image_dir w))]
}.

End Views.

(** The fields of a catalog row, in the order of [apod_images_columns]. *)
Definition row_date (r : list Sqlite.value) : Sqlite.value := Sqlite.field 0 r.
Definition row_path (r : list Sqlite.value) : Sqlite.value := Sqlite.field 1 r.
Definition row_size (r : list Sqlite.value) : Sqlite.value := Sqlite.field 2 r.
Definition row_digest (r : list Sqlite.value) : Sqlite.value := Sqlite.field 3 r.

(** The rows whose SHA_256 column equals [digest] exactly. *)
Definition rows_with_digest (digest : string) (rows : list (list Sqlite.value))
    : list (list Sqlite.value) :=
  filter (fun r => row_digest r = Sqlite.Text digest) rows.

(** The file that the full_path of a row names. *)
Definition row_file (w : world) (r : list Sqlite.value) : option string :=
  match row_path r with
  | Sqlite.Text p => file_of w p
  | _ => None
  end.

(** The most recent row recorded for the file known as [name], under
    whichever of its paths. *)
Definition last_row_for (w : world) (name : string) (rows : list (list Sqlite.value))
    : option (list Sqlite.value) :=
  last (filter (fun r => row_file w r = Some name) rows).

(** The catalog at [db_path] agrees with the disk: the table, when there is
    one, has the script's columns; every row names a regular file that
    exists and is none of SQLite's; and each recorded file holds the bytes
    fingerprinted by the most recent row recorded for it. *)
Definition cache_consistent (db_path : string) (w : world) : Prop :=
  match apod_table db_path w with
  | None => True
  | Some t =>
      Sqlite.tbl_columns t = apod_images_columns /\
      (forall r, r ∈ Sqlite.tbl_rows t ->
         exists p, row_path r = Sqlite.Text p /\
                   stored_apart w db_path p = true /\ is_Some (file_at w p)) /\
      (forall name r, last_row_for w name (Sqlite.tbl_rows t) = Some r ->
         exists b, files w !! name = Some b /\
                   row_digest r = Sqlite.Text (SHA256.hexdigest b))
  end.

(** The rows of [rows] each name a file that exists. *)
Definition rows_have_files (w : world) (rows : list (list Sqlite.value)) : Prop :=
  Forall (fun r => exists p, row_path r = Sqlite.Text p /\ is_Some (file_at w p)) rows.

(** The characters of a [hexdigest]. *)
Definition is_hex_char (c : ascii) : bool :=
  existsb (Ascii.eqb c) (list_ascii_of_string "0123456789abcdef").

(** Eight words of 32 bits: a 256-bit digest. *)
Definition is_word32 (x : Z) : Prop := 0 <= x < 2 ^ 32.
Definition state_256bit (s : SHA256.hstate) : Prop :=
  is_word32 (SHA256.ha s) /\ is_word32 (SHA256.hb s) /\
  is_word32 (SHA256.hc s) /\ is_word32 (SHA256.hd s) /\
  is_word32 (SHA256.he s) /\ is_word32 (SHA256.hf s) /\
  is_word32 (SHA256.hg s) /\ is_word32 (SHA256.hh s).

(** The agreement the catalog is meant to keep with the disk: every row
    names a file that exists, whose length is the recorded size and whose
    fingerprint is the recorded digest. *)
Definition rows_match_files (db_path : string) (w : world) : Prop :=
  forall r, r ∈ catalog db_path w ->
    exists p b, row_path r = Sqlite.Text p /\ file_at w p = Some b /\
      row_size r = Sqlite.Text (str_of_int (py_len b)) /\
      row_digest r = Sqlite.Text (SHA256.hexdigest b).

(** No digest is recorded by two rows. *)
Definition one_row_per_digest (db_path : string) (w : world) : Prop :=
  NoDup (map row_digest (catalog db_path w)).

Section Runs.
Context {os_path : OsPath} {decimals : Strptime.Decimals}.

(** [runs dir w0 w]: [w] is reached from [w0] by successive invocations of
    the script on the images directory [dir], each of which returned
    normally and stored its image apart from SQLite's files.  An invocation
    finds the file system and the databases the previous one left; its
    arguments, clock and network are its own. *)
Inductive runs (dir : string) : world -> world -> Prop :=
  | runs_nil w : runs dir w w
  | runs_step w0 w w1 w2 :
      runs dir w0 w ->
      file_of w1 = file_of w -> files w1 = files w -> dbs w1 = dbs w ->
      image_dir w1 = dir ->
      image_apart w1 = true ->
      main w1 = (Ok tt, w2) ->
      runs dir w0 w2.

End Runs.

(** A concrete machine, for evaluating the script. *)
Module Scenario.
Import NtPath Unicode.

Definition pic_url : string := "https://apod.nasa.gov/apod/image/2203/pic.jpg".
Definition later_url : string := "https://apod.nasa.gov/apod/image/2204/pic.jpg".
Definition capitals_url : string := "https://apod.nasa.gov/apod/image/2204/PIC.JPG".
Definition journal_url : string :=
  "https://apod.nasa.gov/apod/image/2204/apod_images.db-journal".
Definition capitals_db_url : string :=
  "https://apod.nasa.gov/apod/image/2204/APOD_IMAGES.DB".
Definition hello : bytes := list_byte_of_string "hello".
Definition other : bytes := list_byte_of_string "another picture".

(** A network on which the API names [url] for every date and [url] serves
    [body]. *)
Definition net (url : string) (body : bytes)
    : string -> list (string * string) -> option response :=
  fun u _ =>
    if String.eqb u api_url then Some (Response 200 [] (Some {[ "url" := url ]}))
    else if String.eqb u url then Some (Response 200 body None)
    else None.

Definition args : list string := ["apod_desktop.py"; "C:\imgs"; "2022-03-11"].

(** An invocation with arguments [argv] that finds the files [f] and the
    databases [d] on disk.  Every path names a regular file, and names are
    compared exactly (a directory set to be case sensitive). *)
Definition machine (argv : list string) (url : string) (body : bytes)
    (f : gmap string bytes) (d : gmap string Sqlite.database) : world :=
  World argv (Strptime.Date 2022 3 12) (fun p => String.eqb p "C:\imgs")
        (fun _ => true) (net url body) Some f d [] [].

Definition fresh : world := machine args pic_url hello ∅ ∅.

(** The next invocation on the disk that [w] left. *)
Definition again (url : string) (body : bytes) (w : world) : world :=
  machine args url body (files w) (dbs w).

Definition run : world -> result unit * world := main.

Definition db_path : string := "C:\imgs\apod_images.db".
Definition image_path : string := "C:\imgs\pic.jpg".
Definition hello_digest : string :=
  "2cf24dba5fb0a30e26e83b2ac5b9e29e1b161e5c1fa7425e73043362938b9824".

(** The same machine with a file system that ignores the case of ASCII
    letters and knows each file by its name in lower case. *)
Definition ignore_case (p : string) : option string :=
  Some (string_of_list_ascii (map to_lower (list_ascii_of_string p))).

Definition caseless (w : world) : world := with_file_of ignore_case w.

End Scenario.

(** *** Further views: schema, date argument, parts of [main] *)

(** The table at [db_path], when there is one, has the columns the script
    creates it with. *)
Definition script_schema (db_path : string) (w : world) : Prop :=
  match apod_table db_path w with
  | None => True
  | Some t => Sqlite.tbl_columns t = apod_images_columns
  end.

(** The third argument, when there is one, is a date [strptime] accepts. *)
Definition date_argument_ok `{decimals : Strptime.Decimals} (w : world) : Prop :=
  (3 <= length (argv w))%nat -> is_Some (Strptime.strptime (nth 2 (argv w) "")).

(** The outcome of [get_apod_info]: the "url" field of the API's answer,
    whatever its status code; an exception when the request fails, the body
    is not JSON, or the field is missing. *)
Definition apod_info_outcome (w : world) (date : string) : result (gmap string string) :=
  match http w api_url (api_params date) with
  | None => Raise (ConnectionError api_url)
  | Some r =>
      match json r with
      | None => Raise JSONDecodeError
      | Some obj =>
          match obj !! "url" with
          | Some url => Ok {[ "url" := url ]}
          | None => Raise (KeyError "url")
          end
      end
  end.

Section Parts.
Context {os_path : OsPath}.

(** [main] from its line 48 on: fingerprint, report, check, store, show. *)
Definition main_after_download (image_dir_path db_path image_url : string)
    (image_msg : bytes) : M unit :=
  let image_sha256 := SHA256.hexdigest image_msg in
  let image_size := -1 + py_len image_msg in
  let image_path := get_image_path image_url image_dir_path in
  print_apod_info image_url image_path image_size image_sha256 >>
  let* cached := image_already_in_db db_path image_sha256 in
  (if negb (truthy cached) then
     save_image_file image_msg image_path >>
     add_image_to_db db_path image_path image_size image_sha256
   else ret tt) >>
  set_desktop_background_image image_path.

(** [main] from its line 43 on: ask the API, download, then the above. *)
Definition main_after_create (image_dir_path db_path apod_date : string) : M unit :=
  let* apod_info_dict := get_apod_info apod_date in
  let* image_url := dict_get apod_info_dict "url" in
  let* image_msg := download_apod_image image_url in
  main_after_download image_dir_path db_path image_url image_msg.

End Parts.

(** Machines on which a run of the script goes wrong, or meets an HTTP
    error status. *)
Module Failures.
Import NtPath Unicode.

(** The API answers with status [api_status] and the JSON object [obj]
    ([None]: a body that is not JSON); the image URL answers with status
    [status] and [body]. *)
Definition net (api_status : Z) (obj : option (gmap string string))
    (url : string) (status : Z) (body : bytes)
    : string -> list (string * string) -> option response :=
  fun u _ =>
    if String.eqb u api_url then Some (Response api_status [] obj)
    else if String.eqb u url then Some (Response status body None)
    else None.

Definition machine (argv : list string) (can_write : bool)
    (network : string -> list (string * string) -> option response) : world :=
  World argv (Strptime.Date 2022 3 12) (fun p => String.eqb p "C:\imgs")
        (fun _ => can_write) network Some ∅ ∅ [] [].

Definition not_found_page : bytes := list_byte_of_string "<html>404</html>".

(** The image URL answers 404 with an error page. *)
Definition image_missing : world :=
  machine Scenario.args true
    (net 200 (Some {[ "url" := Scenario.pic_url ]}) Scenario.pic_url 404 not_found_page).

(** The images directory cannot be written to. *)
Definition read_only : world :=
  machine Scenario.args false
    (net 200 (Some {[ "url" := Scenario.pic_url ]}) Scenario.pic_url 200 Scenario.hello).

(** The API answers with an error object that has no "url" field. *)
Definition api_error : world :=
  machine Scenario.args true
    (net 403 (Some {[ "error" := "API_KEY_INVALID" ]}) Scenario.pic_url 200 Scenario.hello).

(** The API names an image URL that cannot be reached. *)
Definition image_unreachable : world :=
  machine Scenario.args true
    (fun u _ =>
       if String.eqb u api_url
       then Some (Response 200 [] (Some {[ "url" := Scenario.pic_url ]}))
       else None).

(** No images directory on the command line. *)
Definition no_arguments : world :=
  machine ["apod_desktop.py"] true (Scenario.net Scenario.pic_url Scenario.hello).

(** The date argument is written with fullwidth digits. *)
Definition fullwidth_date : world :=
  Scenario.machine ["apod_desktop.py"; "C:\imgs"; "２０２２-03-11"]
    Scenario.pic_url Scenario.hello ∅ ∅.

End Failures.

(* ===================================================================== *)
(** ** Properties                                                         *)
(* ===================================================================== *)


Section Props.
Context {os_path : OsPath} {decimals : Strptime.Decimals}.

Lemma bind_ok {A B} (m : M A) (k : A -> M B) w b w' :
  bind m k w = (Ok b, w') ->
  exists a w1, m w = (Ok a, w1) /\ k a w1 = (Ok b, w').
Proof.
  unfold bind. destruct (m w) as [[a|e] w1]; [eauto | discriminate].
Qed.

Lemma quiet_refl w : quiet w w [].
Proof. split; try reflexivity. by rewrite app_nil_r. Qed.

Lemma effect_after_quiet w w1 w2 evs f d evs' :
  quiet w w1 evs -> effect w1 w2 f d evs' -> effect w w2 f d (evs ++ evs').
Proof.
  intros [] []. split; try congruence.
  rewrite app_assoc. congruence.
Qed.

Lemma quiet_after_effect w w1 w2 f d evs evs' :
  effect w w1 f d evs -> quiet w1 w2 evs' -> effect w w2 f d (evs ++ evs').
Proof.
  intros [] []. split; try congruence.
  rewrite app_assoc. congruence.
Qed.

Lemma quiet_trans w w1 w2 evs evs' :
  quiet w w1 evs -> quiet w1 w2 evs' -> quiet w w2 (evs ++ evs').
Proof.
  intros [] []. split; try congruence.
  rewrite app_assoc. congruence.
Qed.

Lemma effect_trans w w1 w2 f d evs f' d' evs' :
  effect w w1 f d evs -> effect w1 w2 f' d' evs' -> effect w w2 f' d' (evs ++ evs').
Proof.
  intros [] []. split; try congruence.
  rewrite app_assoc. congruence.
Qed.

Lemma database_at_dbs p w w1 : dbs w1 = dbs w -> database_at p w1 = database_at p w.
Proof. unfold database_at. by intros ->. Qed.

Lemma stored_env w w1 p data :
  file_of w1 = file_of w -> files w1 = files w -> stored w1 p data = stored w p data.
Proof. unfold stored. by intros -> ->. Qed.

Lemma print_quiet args w w1 : print args w = (Ok tt, w1) -> quiet w w1 [].
Proof. intros [= <-]. split; try reflexivity. simpl. by rewrite app_nil_r. Qed.

Lemma emit_quiet e w w1 : emit e w = (Ok tt, w1) -> quiet w w1 [e].
Proof. intros [= <-]. by split. Qed.

Lemma get_image_dir_path_ok w d w1 :
  get_image_dir_path w = (Ok d, w1) ->
  (2 <= length (argv w))%nat /\ d = nth 1 (argv w) "" /\ isdir w d = true /\
  quiet w w1 [].
Proof.
  unfold get_image_dir_path.
  destruct (2 <=? length (argv w))%nat eqn:Hlen; [|discriminate].
  destruct (isdir w (nth 1 (argv w) "")) eqn:Hdir; [|discriminate].
  intros H. apply bind_ok in H as ([] & w2 & Hp & [= <- <-]).
  apply print_quiet in Hp. apply Nat.leb_le in Hlen. auto.
Qed.

Lemma get_apod_date_ok w d w1 :
  get_apod_date w = (Ok d, w1) -> d = requested_date w /\ quiet w w1 [].
Proof.
  unfold get_apod_date, requested_date. intros H.
  apply bind_ok in H as (d' & w2 & Hd & H).
  apply bind_ok in H as ([] & w3 & Hp & [= <- <-]).
  apply print_quiet in Hp.
  assert (w2 = w /\
          d' = if (3 <=? length (argv w))%nat then nth 2 (argv w) ""
               else Strptime.isoformat (today w)) as [-> ->]; [|done].
  destruct (3 <=? length (argv w))%nat; [|by injection Hd].
  destruct (Strptime.strptime _); [by injection Hd | discriminate].
Qed.

Lemma requests_get_ok url params w r w1 :
  requests_get url params w = (Ok r, w1) ->
  http w url params = Some r /\ quiet w w1 [HttpGet url].
Proof.
  unfold requests_get. intros H.
  apply bind_ok in H as ([] & w2 & He & H).
  pose proof (emit_quiet _ _ _ He) as Hq.
  destruct (http w2 url params) as [r'|] eqn:Hh; [|discriminate].
  injection H as <- <-. split; [|done].
  by rewrite <- (eff_http _ _ _ _ _ Hq).
Qed.

Lemma status_print_quiet (c : bool) a b w w1 :
  (if c then print a else print b) w = (Ok tt, w1) -> quiet w w1 [].
Proof. destruct c; apply print_quiet. Qed.

Lemma get_apod_info_ok date w d w1 :
  get_apod_info date w = (Ok d, w1) ->
  exists r obj url,
    http w api_url (api_params date) = Some r /\ json r = Some obj /\
    obj !! "url" = Some url /\ d = {[ "url" := url ]} /\
    quiet w w1 [HttpGet api_url].
Proof.
  unfold get_apod_info. intros H.
  apply bind_ok in H as (r & w2 & Hget & H).
  apply requests_get_ok in Hget as [Hhttp Hq].
  apply bind_ok in H as ([] & w3 & Hp & H).
  apply status_print_quiet in Hp.
  apply bind_ok in H as (url & w4 & Hj & [= <- <-]).
  unfold json_field in Hj. destruct (json r) as [obj|] eqn:Hjson; [|discriminate].
  destruct (obj !! "url") as [u|] eqn:Hu; [|discriminate].
  injection Hj as <- <-.
  exists r, obj, u. split_and!; try done.
  exact (quiet_trans _ _ _ _ _ Hq Hp).
Qed.

Lemma download_apod_image_ok url w msg w1 :
  download_apod_image url w = (Ok msg, w1) ->
  exists r, http w url [] = Some r /\ msg = content r /\ quiet w w1 [HttpGet url].
Proof.
  unfold download_apod_image. intros H.
  apply bind_ok in H as (r & w2 & Hget & H).
  apply requests_get_ok in Hget as [Hhttp Hq].
  apply bind_ok in H as ([] & w3 & Hp & [= <- <-]).
  apply status_print_quiet in Hp.
  exists r. split_and!; try done.
  exact (quiet_trans _ _ _ _ _ Hq Hp).
Qed.

Lemma print_apod_info_ok url p size sha w w1 :
  print_apod_info url p size sha w = (Ok tt, w1) -> quiet w w1 [].
Proof.
  unfold print_apod_info. intros H.
  apply bind_ok in H as ([] & w2 & H1 & H). apply print_quiet in H1.
  apply bind_ok in H as ([] & w3 & H2 & H). apply print_quiet in H2.
  apply bind_ok in H as ([] & w4 & H3 & H). apply print_quiet in H3.
  apply bind_ok in H as ([] & w5 & H4 & H). apply print_quiet in H4.
  apply print_quiet in H.
  exact (quiet_trans _ _ _ _ _ H1 (quiet_trans _ _ _ _ _ H2
           (quiet_trans _ _ _ _ _ H3 (quiet_trans _ _ _ _ _ H4 H)))).
Qed.

Lemma connect_ok p w c w1 : connect p w = (Ok c, w1) -> c = p /\ quiet w w1 [DbConnect p].
Proof.
  unfold connect. intros H.
  apply bind_ok in H as ([] & w2 & He & [= <- <-]).
  split; [done|]. by eapply emit_quiet.
Qed.

Lemma create_image_db_ok db_path w w1 :
  create_image_db db_path w = (Ok tt, w1) ->
  effect w w1 (files w)
    (<[db_path := Sqlite.create_table_if_not_exists "apod_images" apod_images_columns
                    (database_at db_path w)]> (dbs w))
    [DbConnect db_path].
Proof.
  unfold create_image_db. intros H.
  apply bind_ok in H as (c & w2 & Hc & H).
  apply connect_ok in Hc as [-> Hq].
  unfold execute_update in H. cbv beta iota in H. injection H as <-.
  rewrite (database_at_dbs _ _ _ (eff_dbs _ _ _ _ _ Hq)).
  destruct Hq. split; try done; cbn [dbs events with_dbs]; by rewrite ?eff_dbs0.
Qed.

(** The duplicate check never answers [True]: it answers [False] whenever
    the query runs. *)
Lemma image_already_in_db_ok db_path sha w r w1 :
  image_already_in_db db_path sha w = (Ok r, w1) ->
  r = Some false /\ quiet w w1 [DbConnect db_path].
Proof.
  unfold image_already_in_db. intros H.
  apply bind_ok in H as (c & w2 & Hc & H).
  apply connect_ok in Hc as [-> Hq].
  apply bind_ok in H as (rows & w3 & Hx & H).
  assert (w3 = w2) as ->.
  { unfold execute_query in Hx. destruct (Sqlite.select_where _ _ _ _); by injection Hx. }
  change (py_eq (PyRows rows) (PyStr sha)) with false in H.
  change (py_ne (PyRows rows) (PyStr sha)) with true in H. cbv iota in H.
  apply bind_ok in H as ([] & w4 & Hp & [= <- <-]).
  apply print_quiet in Hp. split; [done|].
  rewrite <- (app_nil_r [DbConnect db_path]).
  exact (quiet_trans _ _ _ _ _ Hq Hp).
Qed.

Lemma save_image_file_ok msg p w w1 :
  save_image_file msg p w = (Ok tt, w1) ->
  writable w p = true /\
  effect w w1 (stored w p msg) (dbs w) [FileWrite p].
Proof.
  unfold save_image_file. intros H.
  apply bind_ok in H as ([] & w2 & Hw & Hp).
  apply print_quiet in Hp.
  unfold write_binary in Hw. destruct (writable w p) eqn:Hwr; [|discriminate].
  injection Hw as <-. split; [done|].
  destruct Hp. split; try done. simpl. by rewrite eff_events0, app_nil_r.
Qed.

Lemma insert_ok_inv names params db db' :
  Sqlite.insert "apod_images" names params db = inr db' ->
  exists t, db !! "apod_images" = Some t /\
    db' = <["apod_images" :=
             Sqlite.Table (Sqlite.tbl_columns t)
               (Sqlite.tbl_rows t ++ [Sqlite.new_row (Sqlite.tbl_columns t) names params])]> db.
Proof.
  unfold Sqlite.insert. destruct (db !! "apod_images") as [t|]; [|discriminate].
  repeat match goal with |- context [if ?c then _ else _] => destruct c end;
    try discriminate.
  intros [= <-]. eauto.
Qed.

Lemma add_image_to_db_ok db_path p size sha w w1 :
  add_image_to_db db_path p size sha w = (Ok tt, w1) ->
  exists t, apod_table db_path w = Some t /\
    effect w w1 (files w)
      (<[db_path :=
          <["apod_images" :=
              Sqlite.Table (Sqlite.tbl_columns t)
                (Sqlite.tbl_rows t ++
                 [Sqlite.new_row (Sqlite.tbl_columns t) insert_names
                    (image_info db_path p size sha)])]>
            (database_at db_path w)]> (dbs w))
      [DbConnect db_path].
Proof.
  unfold add_image_to_db. intros H.
  apply bind_ok in H as (c & w2 & Hc & H).
  apply connect_ok in Hc as [-> Hq].
  unfold execute_update in H.
  rewrite (database_at_dbs _ _ _ (eff_dbs _ _ _ _ _ Hq)) in H.
  destruct (Sqlite.insert _ _ _ _) as [e|db'] eqn:Hins; [discriminate|].
  injection H as <-.
  apply insert_ok_inv in Hins as (t & Ht & ->).
  exists t. split; [done|].
  destruct Hq. split; try done; cbn [dbs events with_dbs]; by rewrite ?eff_dbs0.
Qed.

Lemma set_desktop_background_image_ok p w w1 :
  set_desktop_background_image p w = (Ok tt, w1) -> quiet w w1 [SetWallpaper p].
Proof.
  unfold set_desktop_background_image. intros H.
  apply bind_ok in H as ([] & w2 & He & Hp).
  apply emit_quiet in He. apply print_quiet in Hp.
  rewrite <- (app_nil_r [SetWallpaper p]).
  exact (quiet_trans _ _ _ _ _ He Hp).
Qed.


Lemma main_ok_inv w w' :
  main w = (Ok tt, w') -> exists url msg t, ingested w w' url msg t.
Proof.
  unfold main. intros H.
  apply bind_ok in H as (dir & w1 & Hdir & H).
  apply get_image_dir_path_ok in Hdir as (Hlen & -> & Hisdir & Q1).
  fold (image_dir w) in *. fold (db_path_of w) in *.
  apply bind_ok in H as (date & w2 & Hdate & H).
  apply get_apod_date_ok in Hdate as [-> Q2].
  assert (requested_date w1 = requested_date w) as Hreq.
  { unfold requested_date.
    by rewrite (eff_argv _ _ _ _ _ Q1), (eff_today _ _ _ _ _ Q1). }
  rewrite Hreq in H.
  apply bind_ok in H as ([] & w3 & Hc & H).
  apply create_image_db_ok in Hc as E3.
  apply bind_ok in H as (d & w4 & Hinfo & H).
  apply get_apod_info_ok in Hinfo as (r & obj & url & Hhttp & Hjson & Hurl & -> & Q4).
  apply bind_ok in H as (url' & w5 & Hget & H).
  unfold dict_get in Hget. rewrite lookup_singleton_eq in Hget. injection Hget as <- <-.
  apply bind_ok in H as (msg & w6 & Hdl & H).
  apply download_apod_image_ok in Hdl as (r' & Hhttp' & -> & Q6).
  apply bind_ok in H as ([] & w7 & Hprint & H).
  apply print_apod_info_ok in Hprint as Q7.
  apply bind_ok in H as (cached & w8 & Hin & H).
  apply image_already_in_db_ok in Hin as [-> Q8].
  apply bind_ok in H as ([] & w9 & Hstore & H).
  apply set_desktop_background_image_ok in H as Q10.
  change (negb (truthy (Some false))) with true in Hstore. cbv iota in Hstore.
  apply bind_ok in Hstore as ([] & w10 & Hsave & Hadd).
  apply save_image_file_ok in Hsave as [Hw E9].
  apply add_image_to_db_ok in Hadd as (t & Ht & E10).
  (* the state before the file is written *)
  pose proof (quiet_trans _ _ _ _ _ Q1 Q2) as Q02.
  pose proof (quiet_after_effect _ _ _ _ _ _ _
                (quiet_after_effect _ _ _ _ _ _ _
                   (quiet_after_effect _ _ _ _ _ _ _
                      (quiet_after_effect _ _ _ _ _ _ _
                         (effect_after_quiet _ _ _ _ _ _ _ Q02 E3) Q4) Q6) Q7) Q8) as E8.
  rewrite (eff_files _ _ _ _ _ Q02), (eff_dbs _ _ _ _ _ Q02),
    (database_at_dbs _ _ _ (eff_dbs _ _ _ _ _ Q02)) in E8.
  fold (table_after_create w) in E8.
  assert (database_at (db_path_of w) w8 = table_after_create w) as Hdb.
  { unfold database_at. rewrite (eff_dbs _ _ _ _ _ E8), lookup_insert_eq. reflexivity. }
  assert (database_at (db_path_of w) w10 = table_after_create w) as Hdb'.
  { rewrite <- Hdb. apply database_at_dbs. apply (eff_dbs _ _ _ _ _ E9). }
  unfold apod_table in Ht. rewrite Hdb' in Ht, E10.
  pose proof (stored_env _ _ (get_image_path url (image_dir w)) (content r')
                (eff_file_of _ _ _ _ _ E8) (eff_files _ _ _ _ _ E8)) as Hst.
  pose proof (effect_trans _ _ _ _ _ _ _ _ _
                (effect_trans _ _ _ _ _ _ _ _ _
                   (effect_trans _ _ _ _ _ _ _ _ _ E8 E9) E10) Q10) as E.
  rewrite (eff_files _ _ _ _ _ E10), (eff_dbs _ _ _ _ _ E10),
    (eff_files _ _ _ _ _ E9), (eff_dbs _ _ _ _ _ E9),
    Hst, (eff_dbs _ _ _ _ _ E8), insert_insert_eq in E.
  cbn [app] in E.
  exists url, (content r'), t. split.
  - exact Hlen.
  - exact Hisdir.
  - unfold named_url.
    rewrite <- (eff_http _ _ _ _ _ (effect_after_quiet _ _ _ _ _ _ _ Q02 E3)), Hhttp.
    cbn. rewrite Hjson. exact Hurl.
  - exists r'. split; [|done].
    rewrite <- Hhttp'.
    by rewrite (eff_http _ _ _ _ _
                  (quiet_after_effect _ _ _ _ _ _ _
                     (effect_after_quiet _ _ _ _ _ _ _ Q02 E3) Q4)).
  - by rewrite <- Hw, (eff_writable _ _ _ _ _ E8).
  - exact Ht.
  - exact E.
Qed.


Lemma new_row_apod a b c d :
  Sqlite.new_row apod_images_columns insert_names (image_info a b c d) =
  [Sqlite.Text a; Sqlite.Text b; Sqlite.Text (str_of_int c); Sqlite.Text d].
Proof. reflexivity. Qed.

Lemma apod_table_dbs p w w1 : dbs w1 = dbs w -> apod_table p w1 = apod_table p w.
Proof. intros H. unfold apod_table. by rewrite (database_at_dbs _ _ _ H). Qed.

Lemma stored_apart_env w w1 db_path p :
  file_of w1 = file_of w -> stored_apart w1 db_path p = stored_apart w db_path p.
Proof. unfold stored_apart, is_sqlite_file. by intros ->. Qed.

Lemma file_at_env w w1 p :
  file_of w1 = file_of w -> files w1 = files w -> file_at w1 p = file_at w p.
Proof. unfold file_at. by intros -> ->. Qed.

Lemma row_file_env w w1 : file_of w1 = file_of w -> row_file w1 = row_file w.
Proof. unfold row_file. by intros ->. Qed.

Lemma stored_apart_named w db_path p :
  stored_apart w db_path p = true ->
  exists name, file_of w p = Some name /\ is_sqlite_file w db_path name = false.
Proof.
  unfold stored_apart. destruct (file_of w p) as [name|]; [|discriminate].
  intros H. exists name. split; [done|]. by apply negb_true_iff.
Qed.

Lemma cache_consistent_ext p w w1 :
  file_of w1 = file_of w -> files w1 = files w -> dbs w1 = dbs w ->
  cache_consistent p w -> cache_consistent p w1.
Proof.
  intros Hfo Hf Hd. unfold cache_consistent, last_row_for.
  rewrite (apod_table_dbs _ _ _ Hd), (row_file_env _ _ Hfo), Hf.
  destruct (apod_table p w) as [t|]; [|done].
  intros (Hcols & Hrows & Hlast). split_and!; [done | | done].
  intros r Hr. destruct (Hrows r Hr) as (q & Hq & Hap & Hsome).
  exists q. by rewrite (stored_apart_env _ _ _ _ Hfo), (file_at_env _ _ _ Hfo Hf).
Qed.

(** The table [main] works on has the script's columns, and holds the rows
    the catalog had before the run. *)
Lemma table_after_create_inv w t :
  cache_consistent (db_path_of w) w ->
  table_after_create w !! "apod_images" = Some t ->
  Sqlite.tbl_columns t = apod_images_columns /\
  Sqlite.tbl_rows t = catalog (db_path_of w) w /\
  (apod_table (db_path_of w) w = Some t \/
   apod_table (db_path_of w) w = None /\ Sqlite.tbl_rows t = []).
Proof.
  unfold cache_consistent, catalog, table_after_create, apod_table,
    Sqlite.create_table_if_not_exists.
  destruct (database_at (db_path_of w) w !! "apod_images") as [t0|] eqn:Ht0.
  - intros (Hcols & _) Ht. rewrite Ht0 in Ht. injection Ht as <-. auto.
  - intros _ Ht. rewrite lookup_insert_eq in Ht. injection Ht as <-. auto.
Qed.

Lemma apod_table_after_main w w' url msg t :
  ingested w w' url msg t ->
  apod_table (db_path_of w) w' =
  Some (Sqlite.Table (Sqlite.tbl_columns t)
          (Sqlite.tbl_rows t ++ [recorded_row w t url msg])).
Proof.
  intros I. unfold apod_table, database_at.
  rewrite (eff_dbs _ _ _ _ _ (ing_effect _ _ _ _ _ I)), lookup_insert_eq.
  cbn [default from_option id]. by rewrite lookup_insert_eq.
Qed.

(** The files a run of [main] leaves, when the image path names the regular
    file [name]. *)
Lemma files_after_main w w' url msg t name :
  ingested w w' url msg t ->
  file_of w (get_image_path url (image_dir w)) = Some name ->
  files w' = <[name := msg]> (files w).
Proof.
  intros I Hname.
  rewrite (eff_files _ _ _ _ _ (ing_effect _ _ _ _ _ I)).
  unfold stored. by rewrite Hname.
Qed.

Lemma main_preserves_consistency w w' :
  cache_consistent (db_path_of w) w ->
  image_apart w = true ->
  main w = (Ok tt, w') ->
  cache_consistent (db_path_of w) w'.
Proof.
  intros Hc Hapart Hmain.
  destruct (main_ok_inv _ _ Hmain) as (url & msg & t & I).
  destruct (table_after_create_inv _ _ Hc (ing_table _ _ _ _ _ I))
    as (Hcols & Hrows & Hold).
  pose proof (eff_file_of _ _ _ _ _ (ing_effect _ _ _ _ _ I)) as Hfo.
  unfold image_apart in Hapart. rewrite (ing_api _ _ _ _ _ I) in Hapart.
  destruct (stored_apart_named _ _ _ Hapart) as (name & Hname & _).
  pose proof (files_after_main _ _ _ _ _ _ I Hname) as Hfiles.
  unfold cache_consistent, last_row_for.
  rewrite (apod_table_after_main _ _ _ _ _ I), (row_file_env _ _ Hfo).
  cbn [Sqlite.tbl_columns Sqlite.tbl_rows].
  unfold recorded_row. rewrite Hcols, new_row_apod.
  set (p := get_image_path url (image_dir w)) in *.
  set (row := [Sqlite.Text (db_path_of w); Sqlite.Text p;
               Sqlite.Text (str_of_int (-1 + py_len msg));
               Sqlite.Text (SHA256.hexdigest msg)]).
  assert (Hrow : row_file w row = Some name) by exact Hname.
  assert (Hinv :
            (forall r, r ∈ Sqlite.tbl_rows t ->
               exists p0, row_path r = Sqlite.Text p0 /\
                 stored_apart w (db_path_of w) p0 = true /\ is_Some (file_at w p0)) /\
            (forall q r, last_row_for w q (Sqlite.tbl_rows t) = Some r ->
               exists b, files w !! q = Some b /\
                         row_digest r = Sqlite.Text (SHA256.hexdigest b))).
  { destruct Hold as [Ht | [_ Hnil]].
    - unfold cache_consistent in Hc. rewrite Ht in Hc.
      destruct Hc as (_ & H1 & H2). by split.
    - rewrite Hnil. split.
      + intros r Hr. by apply elem_of_nil in Hr.
      + intros q r Hr. discriminate. }
  destruct Hinv as [Hexist Hlast].
  split_and!; [done | |].
  - intros r [Hr | Hr%list_elem_of_singleton]%elem_of_app.
    + destruct (Hexist r Hr) as (p0 & Hp0 & Hap0 & Hsome).
      exists p0. rewrite (stored_apart_env _ _ _ _ Hfo). split_and!; try done.
      unfold file_at in *. rewrite Hfo, Hfiles.
      destruct (file_of w p0) as [name0|]; [|by destruct Hsome].
      cbn in *. apply lookup_insert_is_Some.
      destruct (decide (name = name0)); auto.
    + subst r. exists p. rewrite (stored_apart_env _ _ _ _ Hfo).
      split_and!; try done.
      unfold file_at. rewrite Hfo, Hname, Hfiles. cbn.
      rewrite lookup_insert_eq. eauto.
  - intros q r. rewrite filter_app.
    destruct (decide (name = q)) as [<- | Hne].
    + rewrite (filter_cons_True _ row []) by exact Hrow.
      rewrite filter_nil, last_snoc. intros [= <-].
      exists msg. split; [|done]. by rewrite Hfiles, lookup_insert_eq.
    + rewrite (filter_cons_False _ row []) by (rewrite Hrow; congruence).
      rewrite filter_nil, app_nil_r. intros Hr.
      destruct (Hlast q r Hr) as (b & Hb & Hd).
      exists b. split; [|done]. by rewrite Hfiles, lookup_insert_ne.
Qed.

(** C2, as amended.  After any sequence of invocations of the script on one
    images directory that all returned normally, each storing its image
    apart from SQLite's files, the catalog still agrees with the disk: the
    table has the script's columns, every row names a regular file that
    exists, and every recorded file holds the bytes whose fingerprint is the
    digest of the most recent row recorded for it, whichever path that row
    names it by. *)
Theorem runs_keep_cache_consistent dir w0 w :
  cache_consistent (join dir "apod_images.db") w0 ->
  runs dir w0 w ->
  cache_consistent (join dir "apod_images.db") w.
Proof.
  intros H0 Hruns.
  induction Hruns as [w | w0 w w1 w2 _ IH Hfo Hf Hd Hdir Hapart Hmain].
  - exact H0.
  - specialize (IH H0).
    apply (cache_consistent_ext _ _ _ Hfo Hf Hd) in IH.
    replace (join dir "apod_images.db") with (db_path_of w1) in *
      by (unfold db_path_of; by rewrite Hdir).
    by apply main_preserves_consistency.
Qed.

(** *** get_apod_date *)

Lemma in_range (lo len : nat) (x : Z) :
  Z.of_nat lo <= x < Z.of_nat (lo + len) -> In x (map Z.of_nat (seq lo len)).
Proof.
  intros H. apply in_map_iff. exists (Z.to_nat x). split; [lia | apply in_seq; lia].
Qed.

(** The digits [isoformat] prints are decimal digits, read by their value. *)
Lemma decimal_digit_char n s :
  Strptime.decimal (String (Strptime.digit_char n) s) = Some (n mod 10, s).
Proof.
  unfold Strptime.digit_char.
  assert (In (n mod 10) (map Z.of_nat (seq 0 10))) as Hin.
  { apply in_range. pose proof (Z.mod_pos_bound n 10). lia. }
  revert Hin. generalize (n mod 10). intros k Hin.
  cbn in Hin. repeat destruct Hin as [<- | Hin]; try destruct Hin;
    by rewrite Strptime.decimal_ascii.
Qed.

Lemma year_digits y :
  0 <= y <= 9999 ->
  1000 * ((y / 1000) mod 10) + 100 * ((y / 100) mod 10)
  + 10 * ((y / 10) mod 10) + y mod 10 = y.
Proof.
  intros H.
  assert (y / 1000 = (y / 100) / 10) as E1 by (rewrite Z.div_div by lia; reflexivity).
  assert (y / 100 = (y / 10) / 10) as E2 by (rewrite Z.div_div by lia; reflexivity).
  rewrite (Z.mod_small (y / 1000) 10)
    by (split; [apply Z.div_pos; lia | apply Z.div_lt_upper_bound; lia]).
  pose proof (Z.div_mod (y / 100) 10 ltac:(lia)) as D1.
  pose proof (Z.div_mod (y / 10) 10 ltac:(lia)) as D2.
  pose proof (Z.div_mod y 10 ltac:(lia)) as D3.
  rewrite <- E1 in D1. rewrite <- E2 in D2. lia.
Qed.

Lemma year_match_digits y s :
  0 <= y <= 9999 ->
  Strptime.year_match
    (String (Strptime.digit_char (y / 1000)) (String (Strptime.digit_char (y / 100))
    (String (Strptime.digit_char (y / 10)) (String (Strptime.digit_char y) s)))) =
  Some (y, s).
Proof.
  intros Hy. unfold Strptime.year_match.
  rewrite decimal_digit_char. cbn [mbind option_bind].
  rewrite decimal_digit_char. cbn [mbind option_bind].
  rewrite decimal_digit_char. cbn [mbind option_bind].
  rewrite decimal_digit_char. cbn [mbind option_bind].
  by rewrite (year_digits y Hy).
Qed.

(** A month printed with two digits is the first way %m matches. *)
Lemma month_matches_digits m s :
  1 <= m <= 12 ->
  Strptime.month_matches
    (String (Strptime.digit_char (m / 10)) (String (Strptime.digit_char m)
    (String "-" s))) =
  (m, String "-" s) ::
  (if 10 <=? m then [(1, String (Strptime.digit_char m) (String "-" s))] else []).
Proof.
  intros H0. assert (In m (map Z.of_nat (seq 1 12))) as H by (apply in_range; lia).
  cbn in H. repeat destruct H as [<- | H]; try reflexivity. destruct H.
Qed.

(** A day printed with two digits, with nothing after it, is the first way
    %d matches. *)
Lemma day_matches_digits d :
  1 <= d <= 31 ->
  head (Strptime.day_matches
          (String (Strptime.digit_char (d / 10)) (String (Strptime.digit_char d) ""))) =
  Some (d, "").
Proof.
  intros H0. assert (In d (map Z.of_nat (seq 1 31))) as H by (apply in_range; lia).
  cbn in H. repeat destruct H as [<- | H]; try destruct H;
    cbv -[Strptime.decimal]; rewrite ?Strptime.decimal_ascii by reflexivity;
    reflexivity.
Qed.

Lemma days_in_month_le y m : Strptime.days_in_month y m <= 31.
Proof.
  unfold Strptime.days_in_month.
  repeat match goal with |- context [match ?x with _ => _ end] => destruct x end; lia.
Qed.

(** What [date.isoformat] prints, [strptime] reads back. *)
Lemma strptime_isoformat d :
  Strptime.valid_date d = true -> Strptime.strptime (Strptime.isoformat d) = Some d.
Proof.
  intros Hv. pose proof Hv as Hv'. unfold Strptime.valid_date in Hv'.
  destruct d as [y m dd]. cbn [Strptime.year Strptime.month Strptime.day] in Hv'.
  pose proof (days_in_month_le y m).
  assert (1 <= y <= 9999 /\ 1 <= m <= 12 /\ 1 <= dd <= 31) as (Hy & Hm & Hd) by lia.
  unfold Strptime.strptime, Strptime.match_format, Strptime.isoformat.
  cbn [Strptime.year Strptime.month Strptime.day string_of_list_ascii].
  rewrite year_match_digits by lia. cbn [mbind option_bind Strptime.literal].
  change (Ascii.eqb "-" "-") with true. cbv iota. cbn [mbind option_bind].
  rewrite (month_matches_digits m _ Hm).
  cbn [mbind list_bind Strptime.literal].
  change (Ascii.eqb "-" "-") with true. cbv iota.
  destruct (Strptime.day_matches _) as [|[d' r] more] eqn:Hday;
    pose proof (day_matches_digits dd Hd) as Hhead; rewrite Hday in Hhead;
    [discriminate|].
  injection Hhead as -> ->. cbn. by rewrite Hv.
Qed.

Lemma isoformat_length d : String.length (Strptime.isoformat d) = 10%nat.
Proof. reflexivity. Qed.

Lemma get_image_dir_path_cases w :
  exists w1, quiet w w1 [] /\
    (get_image_dir_path w = (Ok (image_dir w), w1) \/
     get_image_dir_path w = (Raise (SystemExit "Script execution aborted"), w1)).
Proof.
  unfold get_image_dir_path, image_dir.
  destruct (2 <=? length (argv w))%nat; [destruct (isdir w _)|];
    (eexists; split; [|(by left) || (by right)]);
    (split; try reflexivity; cbn [events with_stdout]; by rewrite app_nil_r).
Qed.

Lemma get_apod_date_cases w :
  exists w1, quiet w w1 [] /\
    get_apod_date w =
    (if (3 <=? length (argv w))%nat then
       match Strptime.strptime (nth 2 (argv w) "") with
       | Some _ => Ok (nth 2 (argv w) "")
       | None => Raise (SystemExit "Script execution aborted")
       end
     else Ok (Strptime.isoformat (today w)), w1).
Proof.
  unfold get_apod_date.
  destruct (3 <=? length (argv w))%nat; [destruct (Strptime.strptime _)|];
    (eexists; split; [|reflexivity]);
    (split; try reflexivity; cbn [events with_stdout]; by rewrite app_nil_r).
Qed.

(** C9.  Without a date argument [get_apod_date] returns today's date in
    ISO form, ten characters that [strptime] reads back as today; with a
    date argument that [strptime] rejects, it exits, and [main] exits with
    it having touched neither the network, nor a database, nor a file; with
    a date argument that [strptime] accepts, it returns the argument as
    given. *)
Theorem get_apod_date_spec (w : world) :
  Strptime.valid_date (today w) = true ->
  if (3 <=? length (argv w))%nat then
    match Strptime.strptime (nth 2 (argv w) "") with
    | Some _ =>
        exists w1, get_apod_date w = (Ok (nth 2 (argv w) ""), w1) /\ quiet w w1 []
    | None =>
        (exists w1, get_apod_date w =
                      (Raise (SystemExit "Script execution aborted"), w1) /\
                    quiet w w1 []) /\
        (exists w', main w = (Raise (SystemExit "Script execution aborted"), w') /\
                    quiet w w' [])
    end
  else
    exists w1,
      get_apod_date w = (Ok (Strptime.isoformat (today w)), w1) /\ quiet w w1 [] /\
      Strptime.strptime (Strptime.isoformat (today w)) = Some (today w) /\
      String.length (Strptime.isoformat (today w)) = 10%nat.
Proof.
  intros Htoday.
  destruct (get_apod_date_cases w) as (w1 & Hq & Hrun).
  destruct (3 <=? length (argv w))%nat eqn:Hlen.
  - destruct (Strptime.strptime (nth 2 (argv w) "")) eqn:Hparse; [by eauto|].
    split; [by eauto|].
    destruct (get_image_dir_path_cases w) as (w2 & Hq2 & [Hdir | Hdir]).
    + destruct (get_apod_date_cases w2) as (w3 & Hq3 & Hrun3).
      rewrite (eff_argv _ _ _ _ _ Hq2), Hlen, Hparse in Hrun3.
      exists w3. split.
      * unfold main, bind at 1. rewrite Hdir. unfold bind at 1. by rewrite Hrun3.
      * exact (quiet_trans _ _ _ _ _ Hq2 Hq3).
    + exists w2. split; [|done].
      unfold main, bind at 1. by rewrite Hdir.
  - exists w1. split_and!; try done. by apply strptime_isoformat.
Qed.

(** *** get_image_path *)

(** C10.  [get_image_path] is the directory joined with the base name of
    the normalised URL, so it is the same for two URLs with the same base
    name, whatever the date, the bytes and the files on disk. *)
Theorem get_image_path_depends_on_basename_and_dir image_url other_url dir_path :
  basename (normpath image_url) = basename (normpath other_url) ->
  get_image_path image_url dir_path = join dir_path (basename (normpath image_url)) /\
  get_image_path other_url dir_path = get_image_path image_url dir_path.
Proof. intros H. unfold get_image_path. by rewrite H. Qed.

(** *** save_image_file *)


(** *** add_image_to_db *)

(** C4, as amended.  On a table with the script's columns
    [add_image_to_db] never fails: it adds one row after the rows already
    there, whether or not one of them holds the same digest, and touches no
    file. *)
Theorem add_image_to_db_always_appends db_path image_path image_size image_sha256 w t :
  apod_table db_path w = Some t ->
  Sqlite.tbl_columns t = apod_images_columns ->
  exists w',
    add_image_to_db db_path image_path image_size image_sha256 w = (Ok tt, w') /\
    catalog db_path w' =
      Sqlite.tbl_rows t ++
      [[Sqlite.Text db_path; Sqlite.Text image_path;
        Sqlite.Text (str_of_int image_size); Sqlite.Text image_sha256]] /\
    files w' = files w.
Proof.
  intros Ht Hcols. unfold apod_table in Ht.
  assert (Sqlite.insert "apod_images" insert_names
            (image_info db_path image_path image_size image_sha256)
            (database_at db_path w) =
          inr (<["apod_images" :=
                  Sqlite.Table apod_images_columns
                    (Sqlite.tbl_rows t ++
                     [[Sqlite.Text db_path; Sqlite.Text image_path;
                       Sqlite.Text (str_of_int image_size);
                       Sqlite.Text image_sha256]])]> (database_at db_path w)))
    as Hins.
  { unfold Sqlite.insert. rewrite Ht, Hcols. reflexivity. }
  eexists. split_and!.
  - cbv [add_image_to_db bind connect execute_update emit ret].
    change (database_at db_path (with_events (events w ++ [DbConnect db_path]) w))
      with (database_at db_path w).
    fold insert_names.
    change [Sqlite.Text db_path; Sqlite.Text image_path; Sqlite.Integer image_size;
            Sqlite.Text image_sha256]
      with (image_info db_path image_path image_size image_sha256).
    rewrite Hins. reflexivity.
  - unfold catalog, apod_table, database_at. cbn [dbs with_dbs with_events].
    rewrite lookup_insert_eq. cbn [default from_option id].
    by rewrite lookup_insert_eq.
  - reflexivity.
Qed.
End Props.

(** *** Outcomes of the script: when it returns, when it fails *)

Section MoreProps.
Context {os_path : OsPath} {decimals : Strptime.Decimals}.

Lemma bind_run_ok {A B} (m : M A) (k : A -> M B) w a w1 :
  m w = (Ok a, w1) -> bind m k w = k a w1.
Proof. unfold bind. by intros ->. Qed.

Lemma bind_run_raise {A B} (m : M A) (k : A -> M B) w e w1 :
  m w = (Raise e, w1) -> bind m k w = (Raise e, w1).
Proof. unfold bind. by intros ->. Qed.

Lemma print_run args w : exists w1, print args w = (Ok tt, w1) /\ quiet w w1 [].
Proof. eexists. split; [reflexivity|]. by eapply print_quiet. Qed.

Lemma emit_run e w : exists w1, emit e w = (Ok tt, w1) /\ quiet w w1 [e].
Proof. eexists. split; [reflexivity|]. by eapply emit_quiet. Qed.

Lemma get_image_dir_path_run w :
  (2 <= length (argv w))%nat -> isdir w (image_dir w) = true ->
  exists w1, get_image_dir_path w = (Ok (image_dir w), w1) /\ quiet w w1 [].
Proof.
  intros Hlen Hdir. unfold get_image_dir_path. fold (image_dir w).
  apply Nat.leb_le in Hlen. rewrite Hlen, Hdir.
  destruct (print_run ["Images directory:"; image_dir w] w) as (w1 & Hp & Hq).
  exists w1. split; [|done]. by rewrite (bind_run_ok _ _ _ _ _ Hp).
Qed.

Lemma get_image_dir_path_abort w :
  (length (argv w) < 2)%nat \/ isdir w (image_dir w) = false ->
  exists w1, get_image_dir_path w = (Raise (SystemExit "Script execution aborted"), w1) /\
             quiet w w1 [].
Proof.
  intros H. unfold get_image_dir_path. fold (image_dir w).
  destruct (2 <=? length (argv w))%nat eqn:Hlen.
  - destruct H as [H | H]; [apply Nat.leb_le in Hlen; lia|]. rewrite H.
    destruct (print_run ["Error: Non-existent directory"; image_dir w] w) as (w1 & Hp & Hq).
    exists w1. split; [|done]. by rewrite (bind_run_ok _ _ _ _ _ Hp).
  - destruct (print_run ["Error: Missing path parameter."] w) as (w1 & Hp & Hq).
    exists w1. split; [|done]. by rewrite (bind_run_ok _ _ _ _ _ Hp).
Qed.

(** X1.  Without an images directory on the command line, or with one
    that is not a directory, [main] exits with the message "Script execution
    aborted" before anything else: no request, no database, no file. *)
Theorem main_aborts_without_images_directory w :
  (length (argv w) < 2)%nat \/ isdir w (nth 1 (argv w) "") = false ->
  exists w',
    main w = (Raise (SystemExit "Script execution aborted"), w') /\
    files w' = files w /\ dbs w' = dbs w /\ events w' = events w.
Proof.
  intros H. destruct (get_image_dir_path_abort w H) as (w1 & Hrun & Hq).
  exists w1. split_and!.
  - unfold main. by rewrite (bind_run_raise _ _ _ _ _ Hrun).
  - apply (eff_files _ _ _ _ _ Hq).
  - apply (eff_dbs _ _ _ _ _ Hq).
  - by rewrite (eff_events _ _ _ _ _ Hq), app_nil_r.
Qed.

Lemma main_aborts_dir w :
  (length (argv w) < 2)%nat \/ isdir w (image_dir w) = false ->
  exists w', main w = (Raise (SystemExit "Script execution aborted"), w').
Proof.
  intros H. destruct (get_image_dir_path_abort w H) as (w1 & Hrun & _).
  exists w1. unfold main. by rewrite (bind_run_raise _ _ _ _ _ Hrun).
Qed.

Lemma get_apod_date_run w :
  date_argument_ok w ->
  exists w1, get_apod_date w = (Ok (requested_date w), w1) /\ quiet w w1 [].
Proof.
  intros Hok. destruct (get_apod_date_cases w) as (w1 & Hq & Hrun).
  exists w1. split; [|done]. rewrite Hrun. unfold requested_date.
  unfold date_argument_ok in Hok.
  destruct (3 <=? length (argv w))%nat eqn:Hlen; [|done].
  apply Nat.leb_le in Hlen. destruct (Hok Hlen) as [d ->]. done.
Qed.

Lemma create_image_db_run db_path w :
  exists w1, create_image_db db_path w = (Ok tt, w1) /\
    effect w w1 (files w)
      (<[db_path := Sqlite.create_table_if_not_exists "apod_images" apod_images_columns
                      (database_at db_path w)]> (dbs w))
      [DbConnect db_path].
Proof.
  eexists. split; [reflexivity|]. by apply create_image_db_ok.
Qed.

Lemma requests_get_run url params w :
  exists w1, quiet w w1 [HttpGet url] /\
    requests_get url params w =
    (match http w url params with
     | Some r => Ok r
     | None => Raise (ConnectionError url)
     end, w1).
Proof.
  unfold requests_get.
  destruct (emit_run (HttpGet url) w) as (w1 & He & Hq).
  exists w1. split; [done|]. rewrite (bind_run_ok _ _ _ _ _ He).
  rewrite (eff_http _ _ _ _ _ Hq). by destruct (http w url params).
Qed.

Lemma status_print_run (c : bool) a b w :
  exists w1, (if c then print a else print b) w = (Ok tt, w1) /\ quiet w w1 [].
Proof. destruct c; apply print_run. Qed.

Lemma get_apod_info_run date w :
  exists w1, quiet w w1 [HttpGet api_url] /\
    get_apod_info date w = (apod_info_outcome w date, w1).
Proof.
  unfold get_apod_info, apod_info_outcome.
  destruct (requests_get_run api_url (api_params date) w) as (w1 & Hq & Hget).
  change "https://api.nasa.gov/planetary/apod/" with api_url.
  change [("api_key", "EMwuI4VvmRz1wy7lwzfzXwrXjektW832S3gBEEjN"); ("date", date)]
    with (api_params date).
  destruct (http w api_url (api_params date)) as [r|].
  - rewrite (bind_run_ok _ _ _ _ _ Hget).
    destruct (status_print_run (status_code r =? 200)
                ["Getting APOD info from NASA... success!"]
                ["Close, but no cigar"; str_of_int (status_code r)] w1)
      as (w2 & Hp & Hq2).
    exists w2. split; [exact (quiet_trans _ _ _ _ _ Hq Hq2)|].
    rewrite (bind_run_ok _ _ _ _ _ Hp).
    unfold json_field. destruct (json r) as [obj|]; [|reflexivity].
    destruct (obj !! "url"); reflexivity.
  - exists w1. split; [done|]. by rewrite (bind_run_raise _ _ _ _ _ Hget).
Qed.

Lemma download_apod_image_run url w :
  exists w1, quiet w w1 [HttpGet url] /\
    download_apod_image url w =
    (match http w url [] with
     | Some r => Ok (content r)
     | None => Raise (ConnectionError url)
     end, w1).
Proof.
  unfold download_apod_image.
  destruct (requests_get_run url [] w) as (w1 & Hq & Hget).
  destruct (http w url []) as [r|].
  - rewrite (bind_run_ok _ _ _ _ _ Hget).
    destruct (status_print_run (status_code r =? 200)
                ["downloading APOD from NASA... success!"]
                ["Close, but no cigar"; str_of_int (status_code r)] w1)
      as (w2 & Hp & Hq2).
    exists w2. split; [exact (quiet_trans _ _ _ _ _ Hq Hq2)|].
    by rewrite (bind_run_ok _ _ _ _ _ Hp).
  - exists w1. split; [done|]. by rewrite (bind_run_raise _ _ _ _ _ Hget).
Qed.

Lemma print_apod_info_run url p size sha w :
  exists w1, print_apod_info url p size sha w = (Ok tt, w1) /\ quiet w w1 [].
Proof.
  eexists. split; [reflexivity|]. by eapply print_apod_info_ok.
Qed.

Lemma connect_run p w : exists w1, connect p w = (Ok p, w1) /\ quiet w w1 [DbConnect p].
Proof.
  eexists. split; [reflexivity|]. by eapply connect_ok.
Qed.

Lemma image_already_in_db_run db_path sha w :
  exists w1, quiet w w1 [DbConnect db_path] /\
    image_already_in_db db_path sha w =
    (match select_digests (database_at db_path w) with
     | inr _ => Ok (Some false)
     | inl e => Raise (DatabaseError e)
     end, w1).
Proof.
  unfold image_already_in_db.
  destruct (connect_run db_path w) as (w1 & Hc & Hq).
  rewrite (bind_run_ok _ _ _ _ _ Hc).
  unfold bind at 1, execute_query.
  rewrite (database_at_dbs _ _ _ (eff_dbs _ _ _ _ _ Hq)).
  fold select_digests.
  destruct (select_digests (database_at db_path w)) as [e|rows].
  - exists w1. by split.
  - change (py_eq (PyRows rows) (PyStr sha)) with false.
    change (py_ne (PyRows rows) (PyStr sha)) with true. cbv iota.
    destruct (print_run ["New Image not in cache"] w1) as (w2 & Hp & Hq2).
    exists w2. split.
    + rewrite <- (app_nil_r [DbConnect db_path]). exact (quiet_trans _ _ _ _ _ Hq Hq2).
    + by rewrite (bind_run_ok _ _ _ _ _ Hp).
Qed.


Lemma main_parts :
  main =
  (let* image_dir_path := get_image_dir_path in
   let db_path := join image_dir_path "apod_images.db" in
   let* apod_date := get_apod_date in
   create_image_db db_path >>
   main_after_create image_dir_path db_path apod_date).
Proof. reflexivity. Qed.

Lemma effect_env w w1 f d evs :
  effect w w1 f d evs ->
  argv w1 = argv w /\ today w1 = today w /\ isdir w1 = isdir w /\
  writable w1 = writable w /\ http w1 = http w.
Proof. intros []. auto. Qed.

Lemma create_if_not_exists_lookup db :
  exists t,
    Sqlite.create_table_if_not_exists "apod_images" apod_images_columns db
      !! "apod_images" = Some t /\
    match db !! "apod_images" with
    | Some t0 => t = t0 /\
        Sqlite.create_table_if_not_exists "apod_images" apod_images_columns db = db
    | None => t = Sqlite.Table apod_images_columns []
    end.
Proof.
  unfold Sqlite.create_table_if_not_exists.
  destruct (db !! "apod_images") as [t0|] eqn:Ht0.
  - exists t0. auto.
  - eexists. split; [apply lookup_insert_eq | reflexivity].
Qed.

(** X2.  [create_image_db] always succeeds.  Afterwards the table exists;
    it is the table that was there, rows included, or a new empty one with
    the script's columns.  No file and no other database is touched, and a
    second call changes nothing. *)
Theorem create_image_db_keeps_rows db_path w :
  exists w1 t,
    create_image_db db_path w = (Ok tt, w1) /\
    apod_table db_path w1 = Some t /\
    match apod_table db_path w with
    | Some t0 => t = t0
    | None => t = Sqlite.Table apod_images_columns []
    end /\
    catalog db_path w1 = catalog db_path w /\
    files w1 = files w /\
    (forall q, q <> db_path -> dbs w1 !! q = dbs w !! q) /\
    exists w2, create_image_db db_path w1 = (Ok tt, w2) /\ dbs w2 = dbs w1.
Proof.
  destruct (create_image_db_run db_path w) as (w1 & Hrun & E).
  destruct (create_if_not_exists_lookup (database_at db_path w)) as (t & Ht & Hcase).
  assert (Hdb : database_at db_path w1 =
                Sqlite.create_table_if_not_exists "apod_images" apod_images_columns
                  (database_at db_path w)).
  { unfold database_at at 1. by rewrite (eff_dbs _ _ _ _ _ E), lookup_insert_eq. }
  assert (Htab : apod_table db_path w1 = Some t).
  { unfold apod_table. by rewrite Hdb. }
  exists w1, t. split_and!; try done.
  - unfold apod_table. destruct (database_at db_path w !! "apod_images"); tauto.
  - unfold catalog. rewrite Htab. unfold apod_table.
    destruct (database_at db_path w !! "apod_images"); [by destruct Hcase as [-> _] | by subst t].
  - apply (eff_files _ _ _ _ _ E).
  - intros q Hq. by rewrite (eff_dbs _ _ _ _ _ E), lookup_insert_ne.
  - destruct (create_image_db_run db_path w1) as (w2 & Hrun2 & E2).
    exists w2. split; [done|].
    rewrite (eff_dbs _ _ _ _ _ E2). apply insert_id.
    destruct (create_if_not_exists_lookup (database_at db_path w1)) as (t' & _ & Hcase').
    unfold apod_table in Htab. rewrite Htab in Hcase'. destruct Hcase' as [_ ->].
    rewrite Hdb. by rewrite (eff_dbs _ _ _ _ _ E), lookup_insert_eq.
Qed.

Lemma select_digests_eq db :
  select_digests db =
  match db !! "apod_images" with
  | None => inl (Sqlite.OperationalError "no such table: apod_images")
  | Some t =>
      match Sqlite.column_index "SHA_256" (Sqlite.tbl_columns t) with
      | Some i =>
          inr (map (fun r => [Sqlite.field i r])
                   (filter (fun r => Sqlite.is_true (Sqlite.field i r) = true)
                           (Sqlite.tbl_rows t)))
      | None => inl (Sqlite.OperationalError "no such column")
      end
  end.
Proof.
  unfold select_digests, Sqlite.select_where.
  destruct (db !! "apod_images") as [t|]; [|reflexivity].
  by destruct (Sqlite.column_index "SHA_256" (Sqlite.tbl_columns t)).
Qed.

(** X3.  Whatever rows the table holds and whatever digest is asked for,
    [image_already_in_db] answers [False] as soon as the table has a SHA_256
    column, and raises OperationalError when the table or the column is
    missing; it never answers [True] and changes neither a file nor a
    database. *)
Theorem image_already_in_db_never_finds db_path image_sha256 w :
  exists w1,
    image_already_in_db db_path image_sha256 w =
      (match apod_table db_path w with
       | None =>
           Raise (DatabaseError (Sqlite.OperationalError "no such table: apod_images"))
       | Some t =>
           match Sqlite.column_index "SHA_256" (Sqlite.tbl_columns t) with
           | Some _ => Ok (Some false)
           | None => Raise (DatabaseError (Sqlite.OperationalError "no such column"))
           end
       end, w1) /\
    files w1 = files w /\ dbs w1 = dbs w /\
    events w1 = events w ++ [DbConnect db_path].
Proof.
  destruct (image_already_in_db_run db_path image_sha256 w) as (w1 & Hq & Hrun).
  exists w1. destruct Hq. split_and!; try done.
  rewrite Hrun, select_digests_eq. unfold apod_table.
  destruct (database_at db_path w !! "apod_images") as [t|]; [|reflexivity].
  by destruct (Sqlite.column_index "SHA_256" (Sqlite.tbl_columns t)).
Qed.

Lemma add_image_to_db_run db_path p size sha w :
  exists w1, quiet w w1 [DbConnect db_path] /\
    match Sqlite.insert "apod_images" insert_names (image_info db_path p size sha)
            (database_at db_path w) with
    | inl e => add_image_to_db db_path p size sha w = (Raise (DatabaseError e), w1)
    | inr db' =>
        exists w2, add_image_to_db db_path p size sha w = (Ok tt, w2) /\
          effect w w2 (files w) (<[db_path := db']> (dbs w)) [DbConnect db_path]
    end.
Proof.
  destruct (connect_run db_path w) as (w1 & Hc & Hq).
  exists w1. split; [done|].
  unfold add_image_to_db. rewrite (bind_run_ok _ _ _ _ _ Hc).
  unfold execute_update. rewrite (database_at_dbs _ _ _ (eff_dbs _ _ _ _ _ Hq)).
  fold insert_names.
  change [Sqlite.Text db_path; Sqlite.Text p; Sqlite.Integer size; Sqlite.Text sha]
    with (image_info db_path p size sha).
  destruct (Sqlite.insert _ _ _ _) as [e|db']; [reflexivity|].
  eexists. split; [reflexivity|].
  pose proof (eff_dbs _ _ _ _ _ Hq) as Hdbs.
  destruct Hq. split; try done; cbn [dbs events with_dbs]; by rewrite ?Hdbs.
Qed.

Lemma requested_date_env w w1 :
  argv w1 = argv w -> today w1 = today w -> requested_date w1 = requested_date w.
Proof. unfold requested_date. by intros -> ->. Qed.

Lemma main_reaches_api w :
  (2 <= length (argv w))%nat -> isdir w (image_dir w) = true -> date_argument_ok w ->
  exists w3,
    main w = main_after_create (image_dir w) (db_path_of w) (requested_date w) w3 /\
    effect w w3 (files w) (<[db_path_of w := table_after_create w]> (dbs w))
      [DbConnect (db_path_of w)].
Proof.
  intros Hlen Hdir Hdate.
  destruct (get_image_dir_path_run w Hlen Hdir) as (w1 & H1 & Q1).
  destruct (effect_env _ _ _ _ _ Q1) as (Ha1 & Ht1 & _).
  assert (Hdate1 : date_argument_ok w1).
  { unfold date_argument_ok. by rewrite Ha1. }
  destruct (get_apod_date_run w1 Hdate1) as (w2 & H2 & Q2).
  rewrite (requested_date_env _ _ Ha1 Ht1) in H2.
  destruct (create_image_db_run (db_path_of w) w2) as (w3 & H3 & E3).
  pose proof (quiet_trans _ _ _ _ _ Q1 Q2) as Q02.
  exists w3. split.
  - rewrite main_parts. rewrite (bind_run_ok _ _ _ _ _ H1). cbv beta zeta.
    fold (db_path_of w). rewrite (bind_run_ok _ _ _ _ _ H2).
    by rewrite (bind_run_ok _ _ _ _ _ H3).
  - pose proof (effect_after_quiet _ _ _ _ _ _ _ Q02 E3) as E.
    rewrite (eff_files _ _ _ _ _ Q02), (eff_dbs _ _ _ _ _ Q02),
      (database_at_dbs _ _ _ (eff_dbs _ _ _ _ _ Q02)) in E.
    exact E.
Qed.

Lemma main_after_create_fails dir db_path date w e :
  apod_info_outcome w date = Raise e ->
  exists w1, main_after_create dir db_path date w = (Raise e, w1) /\
             quiet w w1 [HttpGet api_url].
Proof.
  intros Hout. destruct (get_apod_info_run date w) as (w1 & Hq & Hrun).
  rewrite Hout in Hrun. exists w1. split; [|done].
  unfold main_after_create. by rewrite (bind_run_raise _ _ _ _ _ Hrun).
Qed.

Lemma main_after_create_run dir db_path date w url :
  apod_info_outcome w date = Ok {[ "url" := url ]} ->
  exists w2, quiet w w2 [HttpGet api_url; HttpGet url] /\
    main_after_create dir db_path date w =
    match http w url [] with
    | Some r' => main_after_download dir db_path url (content r') w2
    | None => (Raise (ConnectionError url), w2)
    end.
Proof.
  intros Hout. destruct (get_apod_info_run date w) as (w1 & Hq & Hrun).
  rewrite Hout in Hrun.
  destruct (download_apod_image_run url w1) as (w2 & Hq2 & Hdl).
  rewrite (eff_http _ _ _ _ _ Hq) in Hdl.
  exists w2. split; [exact (quiet_trans _ _ _ _ _ Hq Hq2)|].
  unfold main_after_create. rewrite (bind_run_ok _ _ _ _ _ Hrun).
  unfold dict_get. rewrite lookup_singleton_eq. unfold bind at 1, ret.
  destruct (http w url []) as [r'|].
  - by rewrite (bind_run_ok _ _ _ _ _ Hdl).
  - by rewrite (bind_run_raise _ _ _ _ _ Hdl).
Qed.

Lemma apod_info_outcome_url w date r obj url :
  http w api_url (api_params date) = Some r -> json r = Some obj ->
  obj !! "url" = Some url ->
  apod_info_outcome w date = Ok {[ "url" := url ]}.
Proof. unfold apod_info_outcome. by intros -> -> ->. Qed.

Lemma insert_script_schema db t a b c d :
  db !! "apod_images" = Some t ->
  Sqlite.tbl_columns t = apod_images_columns ->
  Sqlite.insert "apod_images" insert_names (image_info a b c d) db =
  inr (<["apod_images" :=
          Sqlite.Table apod_images_columns
            (Sqlite.tbl_rows t ++
             [[Sqlite.Text a; Sqlite.Text b; Sqlite.Text (str_of_int c);
               Sqlite.Text d]])]> db).
Proof. intros Ht Hcols. unfold Sqlite.insert. rewrite Ht, Hcols. reflexivity. Qed.

Lemma save_image_file_run msg p w :
  if writable w p then
    exists w1, save_image_file msg p w = (Ok tt, w1) /\
      effect w w1 (stored w p msg) (dbs w) [FileWrite p]
  else save_image_file msg p w = (Raise (OSError p), w).
Proof.
  destruct (writable w p) eqn:Hw.
  - assert (exists w1, save_image_file msg p w = (Ok tt, w1)) as (w1 & Hrun).
    { unfold save_image_file, bind, write_binary. rewrite Hw. eauto. }
    exists w1. split; [done|]. by apply save_image_file_ok in Hrun as [_ ?].
  - unfold save_image_file, bind, write_binary. by rewrite Hw.
Qed.

Lemma set_desktop_background_image_run p w :
  exists w1, set_desktop_background_image p w = (Ok tt, w1) /\
             quiet w w1 [SetWallpaper p].
Proof. eexists. split; [reflexivity|]. by eapply set_desktop_background_image_ok. Qed.

(** The part of [main] after the download, run on a database whose table
    has the script's columns. *)
Lemma main_after_download_run dir db_path url msg w t :
  database_at db_path w !! "apod_images" = Some t ->
  Sqlite.tbl_columns t = apod_images_columns ->
  if writable w (get_image_path url dir) then
    exists w',
      main_after_download dir db_path url msg w = (Ok tt, w') /\
      effect w w' (stored w (get_image_path url dir) msg)
        (<[db_path :=
            <["apod_images" :=
                Sqlite.Table apod_images_columns
                  (Sqlite.tbl_rows t ++
                   [[Sqlite.Text db_path; Sqlite.Text (get_image_path url dir);
                     Sqlite.Text (str_of_int (-1 + py_len msg));
                     Sqlite.Text (SHA256.hexdigest msg)]])]>
              (database_at db_path w)]> (dbs w))
        [DbConnect db_path; FileWrite (get_image_path url dir);
         DbConnect db_path; SetWallpaper (get_image_path url dir)]
  else
    exists w',
      main_after_download dir db_path url msg w =
        (Raise (OSError (get_image_path url dir)), w') /\
      quiet w w' [DbConnect db_path].
Proof.
  intros Ht Hcols. unfold main_after_download. cbv zeta.
  set (p := get_image_path url dir).
  destruct (print_apod_info_run url p (-1 + py_len msg) (SHA256.hexdigest msg) w)
    as (w1 & H1 & Q1).
  rewrite (bind_run_ok _ _ _ _ _ H1).
  destruct (image_already_in_db_run db_path (SHA256.hexdigest msg) w1)
    as (w2 & Q2 & H2).
  rewrite (database_at_dbs _ _ _ (eff_dbs _ _ _ _ _ Q1)) in H2.
  rewrite select_digests_eq, Ht, Hcols in H2.
  change (Sqlite.column_index "SHA_256" apod_images_columns) with (Some 3%nat) in H2.
  cbv iota in H2.
  rewrite (bind_run_ok _ _ _ _ _ H2).
  change (negb (truthy (Some false))) with true. cbv iota.
  pose proof (quiet_trans _ _ _ _ _ Q1 Q2) as Q02. cbn [app] in Q02.
  pose proof (save_image_file_run msg p w2) as Hsave.
  rewrite (eff_writable _ _ _ _ _ Q02) in Hsave.
  destruct (writable w p).
  - destruct Hsave as (w3 & H3 & E3).
    destruct (add_image_to_db_run db_path p (-1 + py_len msg) (SHA256.hexdigest msg) w3)
      as (w4 & _ & H4).
    assert (Hdb3 : database_at db_path w3 = database_at db_path w).
    { rewrite (database_at_dbs _ _ _ (eff_dbs _ _ _ _ _ E3)).
      apply database_at_dbs, (eff_dbs _ _ _ _ _ Q02). }
    rewrite Hdb3, (insert_script_schema _ _ _ _ _ _ Ht Hcols) in H4.
    destruct H4 as (w5 & H5 & E5).
    destruct (set_desktop_background_image_run p w5) as (w6 & H6 & Q6).
    exists w6. split.
    + rewrite (bind_run_ok _ _ _ _ _
                 (eq_trans (bind_run_ok _ _ _ _ _ H3) H5)).
      exact H6.
    + pose proof (effect_trans _ _ _ _ _ _ _ _ _
                    (effect_trans _ _ _ _ _ _ _ _ _
                       (effect_trans _ _ _ _ _ _ _ _ _ Q02 E3) E5) Q6) as E.
      rewrite (eff_files _ _ _ _ _ E5), (eff_dbs _ _ _ _ _ E5),
        (eff_files _ _ _ _ _ E3), (eff_dbs _ _ _ _ _ E3),
        (stored_env _ _ p msg (eff_file_of _ _ _ _ _ Q02) (eff_files _ _ _ _ _ Q02)),
        (eff_dbs _ _ _ _ _ Q02) in E.
      exact E.
  - exists w2. split; [|exact Q02].
    rewrite (bind_run_raise _ _ _ _ _
               (eq_trans (bind_run_raise _ _ _ _ _ Hsave) eq_refl)).
    reflexivity.
Qed.


Lemma table_after_create_schema w :
  script_schema (db_path_of w) w ->
  exists t,
    table_after_create w !! "apod_images" = Some t /\
    Sqlite.tbl_columns t = apod_images_columns /\
    Sqlite.tbl_rows t = catalog (db_path_of w) w.
Proof.
  unfold script_schema, catalog, apod_table, table_after_create.
  destruct (create_if_not_exists_lookup (database_at (db_path_of w) w))
    as (t & Ht & Hcase).
  destruct (database_at (db_path_of w) w !! "apod_images") as [t0|].
  - intros Hcols. destruct Hcase as [-> _]. eauto.
  - intros _. subst t. eauto.
Qed.

Lemma table_after_create_rows w t :
  table_after_create w !! "apod_images" = Some t ->
  Sqlite.tbl_rows t = catalog (db_path_of w) w.
Proof.
  unfold catalog, apod_table, table_after_create.
  destruct (create_if_not_exists_lookup (database_at (db_path_of w) w))
    as (t' & Ht & Hcase).
  rewrite Ht. intros [= ->].
  destruct (database_at (db_path_of w) w !! "apod_images").
  - by destruct Hcase as [-> _].
  - by subst t.
Qed.

Lemma catalog_of_database db_path w db :
  database_at db_path w = db ->
  catalog db_path w = match db !! "apod_images" with
                      | Some t => Sqlite.tbl_rows t
                      | None => []
                      end.
Proof. intros <-. reflexivity. Qed.

Lemma database_at_insert db_path d db w :
  dbs w = <[db_path := db]> d -> database_at db_path w = db.
Proof. intros H. unfold database_at. by rewrite H, lookup_insert_eq. Qed.

(** X6.  [main] returns normally as soon as: the images directory is given
    and exists, a date argument (if any) parses, the table (if any) has the
    script's columns, the API's answer has a "url" field, that URL answers,
    and the image path can be written and is stored apart from SQLite's
    files; the status codes of the two answers play no part.  The body is
    then the content of the file the image path names, and one row with the
    database path, the image path, the length less one and the digest of the
    body is added after the rows already there. *)
Theorem main_returns w r obj url r' :
  (2 <= length (argv w))%nat ->
  isdir w (image_dir w) = true ->
  date_argument_ok w ->
  script_schema (db_path_of w) w ->
  http w api_url (api_params (requested_date w)) = Some r ->
  json r = Some obj ->
  obj !! "url" = Some url ->
  http w url [] = Some r' ->
  writable w (get_image_path url (image_dir w)) = true ->
  stored_apart w (db_path_of w) (get_image_path url (image_dir w)) = true ->
  exists w',
    main w = (Ok tt, w') /\
    file_at w' (get_image_path url (image_dir w)) = Some (content r') /\
    catalog (db_path_of w) w' =
      catalog (db_path_of w) w ++
      [[Sqlite.Text (db_path_of w); Sqlite.Text (get_image_path url (image_dir w));
        Sqlite.Text (str_of_int (-1 + py_len (content r')));
        Sqlite.Text (SHA256.hexdigest (content r'))]].
Proof.
  intros Hlen Hdir Hdate Hschema Hapi Hjson Hurl Himg Hw Hapart.
  destruct (main_reaches_api w Hlen Hdir Hdate) as (w3 & Hmain & E3).
  destruct (effect_env _ _ _ _ _ E3) as (_ & _ & _ & Hwr3 & Hh3).
  assert (Hout : apod_info_outcome w3 (requested_date w) = Ok {[ "url" := url ]}).
  { eapply apod_info_outcome_url; [by rewrite Hh3 | done | done]. }
  destruct (main_after_create_run (image_dir w) (db_path_of w) _ w3 url Hout)
    as (w5 & Q5 & Hrun).
  rewrite Hh3, Himg in Hrun.
  destruct (table_after_create_schema w Hschema) as (t & Ht & Hcols & Hrows).
  assert (Hdb : database_at (db_path_of w) w5 = table_after_create w).
  { rewrite (database_at_dbs _ _ _ (eff_dbs _ _ _ _ _ Q5)).
    apply (database_at_insert _ _ _ _ (eff_dbs _ _ _ _ _ E3)). }
  pose proof (main_after_download_run (image_dir w) (db_path_of w) url (content r') w5 t)
    as Hdown.
  rewrite Hdb, (eff_writable _ _ _ _ _ Q5), Hwr3, Hw in Hdown.
  destruct (Hdown Ht Hcols) as (w' & Hrun' & E').
  exists w'. split_and!.
  - by rewrite Hmain, Hrun.
  - destruct (stored_apart_named _ _ _ Hapart) as (name & Hname & _).
    pose proof (quiet_after_effect _ _ _ _ _ _ _ E3 Q5) as E35.
    unfold file_at.
    rewrite (eff_file_of _ _ _ _ _ E'), (eff_file_of _ _ _ _ _ E35), Hname.
    rewrite (eff_files _ _ _ _ _ E'),
      (stored_env _ _ _ _ (eff_file_of _ _ _ _ _ E35) (eff_files _ _ _ _ _ E35)).
    unfold stored. rewrite Hname. apply lookup_insert_eq.
  - rewrite (catalog_of_database _ _ _
               (database_at_insert _ _ _ _ (eff_dbs _ _ _ _ _ E'))).
    by rewrite lookup_insert_eq, <- Hrows.
Qed.

(** X7.  When everything goes well up to the point where the image file
    cannot be opened for writing, [main] fails with the OSError: both
    requests have been made and the table exists, but no file has changed,
    no row has been added and the wallpaper has not been set. *)
Theorem main_write_failure_adds_no_row w r obj url r' :
  (2 <= length (argv w))%nat ->
  isdir w (image_dir w) = true ->
  date_argument_ok w ->
  script_schema (db_path_of w) w ->
  http w api_url (api_params (requested_date w)) = Some r ->
  json r = Some obj ->
  obj !! "url" = Some url ->
  http w url [] = Some r' ->
  writable w (get_image_path url (image_dir w)) = false ->
  exists w',
    main w = (Raise (OSError (get_image_path url (image_dir w))), w') /\
    files w' = files w /\
    catalog (db_path_of w) w' = catalog (db_path_of w) w /\
    events w' = events w ++
      [DbConnect (db_path_of w); HttpGet api_url; HttpGet url; DbConnect (db_path_of w)].
Proof.
  intros Hlen Hdir Hdate Hschema Hapi Hjson Hurl Himg Hw.
  destruct (main_reaches_api w Hlen Hdir Hdate) as (w3 & Hmain & E3).
  destruct (effect_env _ _ _ _ _ E3) as (_ & _ & _ & Hwr3 & Hh3).
  assert (Hout : apod_info_outcome w3 (requested_date w) = Ok {[ "url" := url ]}).
  { eapply apod_info_outcome_url; [by rewrite Hh3 | done | done]. }
  destruct (main_after_create_run (image_dir w) (db_path_of w) _ w3 url Hout)
    as (w5 & Q5 & Hrun).
  rewrite Hh3, Himg in Hrun.
  destruct (table_after_create_schema w Hschema) as (t & Ht & Hcols & Hrows).
  assert (Hdb : database_at (db_path_of w) w5 = table_after_create w).
  { rewrite (database_at_dbs _ _ _ (eff_dbs _ _ _ _ _ Q5)).
    apply (database_at_insert _ _ _ _ (eff_dbs _ _ _ _ _ E3)). }
  pose proof (main_after_download_run (image_dir w) (db_path_of w) url (content r') w5 t)
    as Hdown.
  rewrite Hdb, (eff_writable _ _ _ _ _ Q5), Hwr3, Hw in Hdown.
  destruct (Hdown Ht Hcols) as (w' & Hrun' & Q').
  pose proof (quiet_after_effect _ _ _ _ _ _ _
                (quiet_after_effect _ _ _ _ _ _ _ E3 Q5) Q') as E.
  exists w'. split_and!.
  - by rewrite Hmain, Hrun.
  - apply (eff_files _ _ _ _ _ E).
  - rewrite (catalog_of_database _ _ _
               (database_at_insert _ _ _ _ (eff_dbs _ _ _ _ _ E))).
    by rewrite Ht.
  - apply (eff_events _ _ _ _ _ E).
Qed.

Lemma main_fails_at_api w e :
  (2 <= length (argv w))%nat ->
  isdir w (image_dir w) = true ->
  date_argument_ok w ->
  apod_info_outcome w (requested_date w) = Raise e ->
  exists w',
    main w = (Raise e, w') /\
    files w' = files w /\
    catalog (db_path_of w) w' = catalog (db_path_of w) w /\
    events w' = events w ++ [DbConnect (db_path_of w); HttpGet api_url].
Proof.
  intros Hlen Hdir Hdate Hout.
  destruct (main_reaches_api w Hlen Hdir Hdate) as (w3 & Hmain & E3).
  destruct (effect_env _ _ _ _ _ E3) as (_ & _ & _ & _ & Hh3).
  assert (Hout3 : apod_info_outcome w3 (requested_date w) = Raise e).
  { unfold apod_info_outcome in *. by rewrite Hh3. }
  destruct (main_after_create_fails (image_dir w) (db_path_of w) _ w3 e Hout3)
    as (w' & Hrun & Q').
  pose proof (quiet_after_effect _ _ _ _ _ _ _ E3 Q') as E.
  destruct (create_if_not_exists_lookup (database_at (db_path_of w) w))
    as (t & Ht & _).
  exists w'. split_and!.
  - by rewrite Hmain.
  - apply (eff_files _ _ _ _ _ E).
  - rewrite (catalog_of_database _ _ _
               (database_at_insert _ _ _ _ (eff_dbs _ _ _ _ _ E))).
    fold (table_after_create w) in Ht. rewrite Ht.
    by apply table_after_create_rows.
  - apply (eff_events _ _ _ _ _ E).
Qed.

(** X8.  When the API cannot be reached, answers with something that is not
    JSON, or answers with a JSON object without a "url" field, [main] fails
    with ConnectionError, JSONDecodeError or KeyError respectively, after
    the one request: nothing is downloaded, no file changes, no row is
    added. *)
Theorem main_api_failure w e :
  (2 <= length (argv w))%nat ->
  isdir w (image_dir w) = true ->
  date_argument_ok w ->
  (http w api_url (api_params (requested_date w)) = None /\
     e = ConnectionError api_url) \/
  (exists r, http w api_url (api_params (requested_date w)) = Some r /\
     json r = None /\ e = JSONDecodeError) \/
  (exists r obj, http w api_url (api_params (requested_date w)) = Some r /\
     json r = Some obj /\ obj !! "url" = None /\ e = KeyError "url") ->
  exists w',
    main w = (Raise e, w') /\
    files w' = files w /\
    catalog (db_path_of w) w' = catalog (db_path_of w) w /\
    events w' = events w ++ [DbConnect (db_path_of w); HttpGet api_url].
Proof.
  intros Hlen Hdir Hdate Hcase.
  apply main_fails_at_api; try done.
  unfold apod_info_outcome.
  destruct Hcase as [[-> ->] | [(r & -> & -> & ->) | (r & obj & -> & -> & -> & ->)]];
    reflexivity.
Qed.

(** X10.  When the image URL the API names cannot be reached, [main] fails
    with ConnectionError after the two requests: no file changes and no row
    is added. *)
Theorem main_download_failure w r obj url :
  (2 <= length (argv w))%nat ->
  isdir w (image_dir w) = true ->
  date_argument_ok w ->
  http w api_url (api_params (requested_date w)) = Some r ->
  json r = Some obj ->
  obj !! "url" = Some url ->
  http w url [] = None ->
  exists w',
    main w = (Raise (ConnectionError url), w') /\
    files w' = files w /\
    catalog (db_path_of w) w' = catalog (db_path_of w) w /\
    events w' = events w ++ [DbConnect (db_path_of w); HttpGet api_url; HttpGet url].
Proof.
  intros Hlen Hdir Hdate Hapi Hjson Hurl Himg.
  destruct (main_reaches_api w Hlen Hdir Hdate) as (w3 & Hmain & E3).
  destruct (effect_env _ _ _ _ _ E3) as (_ & _ & _ & _ & Hh3).
  assert (Hout : apod_info_outcome w3 (requested_date w) = Ok {[ "url" := url ]}).
  { eapply apod_info_outcome_url; [by rewrite Hh3 | done | done]. }
  destruct (main_after_create_run (image_dir w) (db_path_of w) _ w3 url Hout)
    as (w' & Q' & Hrun).
  rewrite Hh3, Himg in Hrun.
  pose proof (quiet_after_effect _ _ _ _ _ _ _ E3 Q') as E.
  destruct (create_if_not_exists_lookup (database_at (db_path_of w) w))
    as (t & Ht & _).
  exists w'. split_and!.
  - by rewrite Hmain.
  - apply (eff_files _ _ _ _ _ E).
  - rewrite (catalog_of_database _ _ _
               (database_at_insert _ _ _ _ (eff_dbs _ _ _ _ _ E))).
    fold (table_after_create w) in Ht. rewrite Ht.
    by apply table_after_create_rows.
  - apply (eff_events _ _ _ _ _ E).
Qed.

(** X4.  A run of [main] that returns, having stored its image apart from
    SQLite's files, has added exactly one row after the rows that were
    there, which it has left as they were; on a table with the script's
    columns the row names the image path and carries the digest of the
    downloaded bytes, which are the content of the file that path names. *)
Theorem main_appends_one_row w w' :
  main w = (Ok tt, w') ->
  image_apart w = true ->
  exists url msg row,
    named_url w = Some url /\
    (exists r, http w url [] = Some r /\ msg = content r) /\
    catalog (db_path_of w) w' = catalog (db_path_of w) w ++ [row] /\
    file_at w' (get_image_path url (image_dir w)) = Some msg /\
    (script_schema (db_path_of w) w ->
     row = [Sqlite.Text (db_path_of w); Sqlite.Text (get_image_path url (image_dir w));
            Sqlite.Text (str_of_int (-1 + py_len msg));
            Sqlite.Text (SHA256.hexdigest msg)]).
Proof.
  intros Hmain Hapart. destruct (main_ok_inv _ _ Hmain) as (url & msg & t & I).
  pose proof (table_after_create_rows _ _ (ing_table _ _ _ _ _ I)) as Hrows.
  exists url, msg, (recorded_row w t url msg). split_and!.
  - exact (ing_api _ _ _ _ _ I).
  - exact (ing_download _ _ _ _ _ I).
  - unfold catalog at 1. rewrite (apod_table_after_main _ _ _ _ _ I).
    cbn [Sqlite.tbl_rows]. by rewrite Hrows.
  - unfold image_apart in Hapart. rewrite (ing_api _ _ _ _ _ I) in Hapart.
    destruct (stored_apart_named _ _ _ Hapart) as (name & Hname & _).
    unfold file_at.
    rewrite (eff_file_of _ _ _ _ _ (ing_effect _ _ _ _ _ I)), Hname,
      (files_after_main _ _ _ _ _ _ I Hname).
    apply lookup_insert_eq.
  - intros Hschema.
    destruct (table_after_create_schema w Hschema) as (t' & Ht' & Hcols & _).
    rewrite (ing_table _ _ _ _ _ I) in Ht'. injection Ht' as <-.
    unfold recorded_row. by rewrite Hcols, new_row_apod.
Qed.

Lemma catalog_dbs p w w1 : dbs w1 = dbs w -> catalog p w1 = catalog p w.
Proof. intros H. unfold catalog. by rewrite (apod_table_dbs _ _ _ H). Qed.

Lemma file_at_kept w w' url msg t q :
  ingested w w' url msg t -> is_Some (file_at w q) -> is_Some (file_at w' q).
Proof.
  intros I. pose proof (ing_effect _ _ _ _ _ I) as E. unfold file_at.
  rewrite (eff_file_of _ _ _ _ _ E), (eff_files _ _ _ _ _ E). unfold stored.
  destruct (file_of w q) as [name|]; [|done]. cbn.
  destruct (file_of w (get_image_path url (image_dir w))) as [name'|]; [|done].
  intros Hsome. apply lookup_insert_is_Some.
  destruct (decide (name' = name)); auto.
Qed.

Lemma rows_have_files_env w w1 rows :
  file_of w1 = file_of w -> files w1 = files w ->
  rows_have_files w rows -> rows_have_files w1 rows.
Proof.
  intros Hfo Hf H. eapply Forall_impl; [exact H|]. intros r (q & Hq & Hsome).
  exists q. by rewrite (file_at_env _ _ _ Hfo Hf).
Qed.

(** One run on a catalog with the script's columns. *)
Lemma main_step w w' added :
  main w = (Ok tt, w') ->
  image_apart w = true ->
  script_schema (db_path_of w) w ->
  rows_have_files w added ->
  exists row,
    catalog (db_path_of w) w' = catalog (db_path_of w) w ++ [row] /\
    script_schema (db_path_of w) w' /\
    rows_have_files w' (added ++ [row]).
Proof.
  intros Hmain Hapart Hschema Hadded.
  destruct (main_ok_inv _ _ Hmain) as (url & msg & t & I).
  destruct (table_after_create_schema w Hschema) as (t' & Ht' & Hcols & Hrows).
  rewrite (ing_table _ _ _ _ _ I) in Ht'. injection Ht' as <-.
  exists (recorded_row w t url msg). split_and!.
  - unfold catalog at 1. rewrite (apod_table_after_main _ _ _ _ _ I).
    cbn [Sqlite.tbl_rows]. by rewrite Hrows.
  - unfold script_schema. by rewrite (apod_table_after_main _ _ _ _ _ I).
  - apply Forall_app. split.
    + eapply Forall_impl; [exact Hadded|]. intros r (q & Hq & Hsome).
      exists q. split; [done|]. by eapply file_at_kept.
    + apply Forall_singleton. unfold recorded_row. rewrite Hcols, new_row_apod.
      exists (get_image_path url (image_dir w)). split; [done|].
      unfold image_apart in Hapart. rewrite (ing_api _ _ _ _ _ I) in Hapart.
      destruct (stored_apart_named _ _ _ Hapart) as (name & Hname & _).
      unfold file_at.
      rewrite (eff_file_of _ _ _ _ _ (ing_effect _ _ _ _ _ I)), Hname,
        (files_after_main _ _ _ _ _ _ I Hname).
      cbn. rewrite lookup_insert_eq. eauto.
Qed.

(** X11.  The catalog is append-only over any number of runs: after any
    sequence of invocations on one images directory that all returned
    normally, each storing its image apart from SQLite's files, on a table
    that had the script's columns (or none), the rows the catalog had at the
    start are still there, in the same order, before the rows added since;
    and each of the rows added names a file that exists. *)
Theorem runs_only_append dir w0 w :
  script_schema (join dir "apod_images.db") w0 ->
  runs dir w0 w ->
  exists added,
    catalog (join dir "apod_images.db") w =
    catalog (join dir "apod_images.db") w0 ++ added /\
    script_schema (join dir "apod_images.db") w /\
    rows_have_files w added.
Proof.
  intros H0.
  induction 1 as [w | w0 w w1 w2 _ IH Hfo Hf Hd Hdir Hapart Hmain].
  - exists []. rewrite app_nil_r. split_and!; [done | done | apply Forall_nil_2].
  - destruct (IH H0) as (added & Hcat & Hschema & Hadded).
    assert (Hschema1 : script_schema (db_path_of w1) w1).
    { unfold db_path_of. rewrite Hdir. unfold script_schema.
      by rewrite (apod_table_dbs _ _ _ Hd). }
    destruct (main_step _ _ added Hmain Hapart Hschema1
                (rows_have_files_env _ _ _ Hfo Hf Hadded))
      as (row & Hrow & Hschema2 & Hadded2).
    unfold db_path_of in Hrow, Hschema2. rewrite Hdir in Hrow, Hschema2.
    exists (added ++ [row]). split_and!; try done.
    by rewrite Hrow, (catalog_dbs _ _ _ Hd), Hcat, app_assoc.
Qed.

(** X5.  A run of [main] that returns has, in this order: opened the
    database, asked the API, downloaded the image, opened the database,
    opened the image path for writing, opened the database, and set the
    wallpaper to the path it wrote; it has done nothing else that is
    observable.  When the image path is stored apart from SQLite's files,
    the file the wallpaper is set to holds the downloaded bytes. *)
Theorem main_sets_wallpaper_to_saved_file w w' :
  main w = (Ok tt, w') ->
  exists url msg,
    named_url w = Some url /\
    (exists r, http w url [] = Some r /\ msg = content r) /\
    events w' = events w ++
      [DbConnect (db_path_of w); HttpGet api_url; HttpGet url;
       DbConnect (db_path_of w); FileWrite (get_image_path url (image_dir w));
       DbConnect (db_path_of w); SetWallpaper (get_image_path url (image_dir w))] /\
    (image_apart w = true ->
     file_at w' (get_image_path url (image_dir w)) = Some msg).
Proof.
  intros Hmain. destruct (main_ok_inv _ _ Hmain) as (url & msg & t & I).
  pose proof (ing_effect _ _ _ _ _ I) as E.
  exists url, msg. split_and!.
  - exact (ing_api _ _ _ _ _ I).
  - exact (ing_download _ _ _ _ _ I).
  - exact (eff_events _ _ _ _ _ E).
  - intros Hapart. unfold image_apart in Hapart.
    rewrite (ing_api _ _ _ _ _ I) in Hapart.
    destruct (stored_apart_named _ _ _ Hapart) as (name & Hname & _).
    unfold file_at.
    rewrite (eff_file_of _ _ _ _ _ E), Hname, (files_after_main _ _ _ _ _ _ I Hname).
    apply lookup_insert_eq.
Qed.


Lemma main_after_download_ok dir db_path url msg w w' :
  main_after_download dir db_path url msg w = (Ok tt, w') ->
  writable w (get_image_path url dir) = true.
Proof.
  unfold main_after_download. cbv zeta. intros H.
  apply bind_ok in H as ([] & w1 & Hprint & H).
  apply print_apod_info_ok in Hprint as Q1.
  apply bind_ok in H as (cached & w2 & Hin & H).
  apply image_already_in_db_ok in Hin as [-> Q2].
  apply bind_ok in H as ([] & w3 & Hstore & _).
  change (negb (truthy (Some false))) with true in Hstore. cbv iota in Hstore.
  apply bind_ok in Hstore as ([] & w4 & Hsave & _).
  apply save_image_file_ok in Hsave as [Hw _].
  by rewrite (eff_writable _ _ _ _ _ Q2), (eff_writable _ _ _ _ _ Q1) in Hw.
Qed.

Lemma main_rejects_date w :
  (2 <= length (argv w))%nat -> isdir w (image_dir w) = true ->
  (3 <= length (argv w))%nat -> Strptime.strptime (nth 2 (argv w) "") = None ->
  exists w', main w = (Raise (SystemExit "Script execution aborted"), w').
Proof.
  intros Hlen Hdir Hlen3 Hparse.
  destruct (get_image_dir_path_run w Hlen Hdir) as (w1 & H1 & Q1).
  destruct (get_apod_date_cases w1) as (w2 & _ & H2).
  apply Nat.leb_le in Hlen3.
  rewrite (eff_argv _ _ _ _ _ Q1), Hlen3, Hparse in H2.
  exists w2. rewrite main_parts, (bind_run_ok _ _ _ _ _ H1). cbv beta zeta.
  by rewrite (bind_run_raise _ _ _ _ _ H2).
Qed.

(** X12.  [main] returns normally only if: the images directory is given
    and exists, a date argument (if any) parses, the API, asked for the date
    argument as given (today's ISO date without one), answers with a JSON
    object that has a "url" field, that URL answers, and the image path can
    be written. *)
Theorem main_returns_only_if w w' :
  main w = (Ok tt, w') ->
  (2 <= length (argv w))%nat /\
  isdir w (image_dir w) = true /\
  date_argument_ok w /\
  exists r obj url r',
    http w api_url (api_params (requested_date w)) = Some r /\
    json r = Some obj /\
    obj !! "url" = Some url /\
    http w url [] = Some r' /\
    writable w (get_image_path url (image_dir w)) = true.
Proof.
  intros Hmain.
  assert (Hlen : (2 <= length (argv w))%nat /\ isdir w (image_dir w) = true).
  { destruct (le_lt_dec 2 (length (argv w))) as [Hle | Hlt];
      [destruct (isdir w (image_dir w)) eqn:Hdir; [done|] |].
    - destruct (main_aborts_dir w (or_intror Hdir)) as (w1 & Hrun).
      rewrite Hrun in Hmain. discriminate.
    - destruct (main_aborts_dir w (or_introl Hlt)) as (w1 & Hrun).
      rewrite Hrun in Hmain. discriminate. }
  destruct Hlen as [Hlen Hdir].
  assert (Hdate : date_argument_ok w).
  { intros Hlen3. destruct (Strptime.strptime (nth 2 (argv w) "")) eqn:Hparse; [eauto|].
    destruct (main_rejects_date w Hlen Hdir Hlen3 Hparse) as (w1 & Hrun).
    rewrite Hrun in Hmain. discriminate. }
  split_and!; try done.
  destruct (main_reaches_api w Hlen Hdir Hdate) as (w3 & Hparts & E3).
  destruct (effect_env _ _ _ _ _ E3) as (_ & _ & _ & Hwr3 & Hh3).
  rewrite Hparts in Hmain.
  destruct (apod_info_outcome w3 (requested_date w)) as [d|e] eqn:Hout.
  - unfold apod_info_outcome in Hout. rewrite Hh3 in Hout.
    destruct (http w api_url (api_params (requested_date w))) as [r|] eqn:Hapi;
      [|discriminate].
    destruct (json r) as [obj|] eqn:Hjson; [|discriminate].
    destruct (obj !! "url") as [url|] eqn:Hurl; [|discriminate].
    assert (Hout' : apod_info_outcome w3 (requested_date w) = Ok {[ "url" := url ]}).
    { eapply apod_info_outcome_url; [by rewrite Hh3 | done | done]. }
    destruct (main_after_create_run (image_dir w) (db_path_of w) _ w3 url Hout')
      as (w5 & Q5 & Hrun).
    rewrite Hh3 in Hrun. rewrite Hrun in Hmain.
    destruct (http w url []) as [r'|] eqn:Himg; [|discriminate].
    exists r, obj, url, r'. split_and!; try done.
    apply main_after_download_ok in Hmain.
    by rewrite (eff_writable _ _ _ _ _ Q5), Hwr3 in Hmain.
  - destruct (main_after_create_fails (image_dir w) (db_path_of w) _ w3 e Hout)
      as (w1 & Hrun & _).
    rewrite Hrun in Hmain. discriminate.
Qed.

End MoreProps.

(** The closed examples below run the script on Windows paths, with the
    decimal digits of Unicode 14.0. *)
#[local] Existing Instance NtPath.ntpath.
#[local] Existing Instance Unicode.unicode_decimals.

(** *** The fingerprint *)

Lemma wrap32_word x : is_word32 (SHA256.wrap32 x).
Proof. unfold is_word32, SHA256.wrap32. apply Z.mod_pos_bound. lia. Qed.

Lemma H0_256bit : state_256bit SHA256.H0.
Proof. unfold state_256bit, is_word32. cbn. lia. Qed.

Lemma compress_256bit s block : state_256bit (SHA256.compress s block).
Proof.
  unfold SHA256.compress, SHA256.add_state, state_256bit, SHA256.add32.
  cbn [SHA256.ha SHA256.hb SHA256.hc SHA256.hd SHA256.he SHA256.hf SHA256.hg SHA256.hh].
  split_and!; apply wrap32_word.
Qed.

Lemma fold_compress_256bit blocks s :
  state_256bit s -> state_256bit (fold_left SHA256.compress blocks s).
Proof.
  revert s. induction blocks as [|b blocks IH]; intros s Hs; [exact Hs|].
  cbn [fold_left]. apply IH, compress_256bit.
Qed.

Lemma digest_256bit msg : state_256bit (SHA256.digest msg).
Proof. unfold SHA256.digest. apply fold_compress_256bit, H0_256bit. Qed.

Lemma hex_digit_is_hex n : is_hex_char (SHA256.hex_digit n) = true.
Proof.
  unfold SHA256.hex_digit.
  repeat match goal with |- context [match ?x with _ => _ end] => destruct x end;
    reflexivity.
Qed.

Lemma hex32_length x rest :
  String.length (SHA256.hex32 x rest) = (8 + String.length rest)%nat.
Proof. reflexivity. Qed.

Lemma hex32_is_hex x rest :
  forallb is_hex_char (list_ascii_of_string rest) = true ->
  forallb is_hex_char (list_ascii_of_string (SHA256.hex32 x rest)) = true.
Proof.
  intros H. unfold SHA256.hex32, SHA256.nibble.
  cbn [list_ascii_of_string forallb]. by rewrite !hex_digit_is_hex, H.
Qed.

(** C8.  The fingerprint is a function of the bytes alone, defined on every
    byte sequence: equal bytes give equal digests, and each digest is a
    256-bit value, eight 32-bit words printed as 64 hexadecimal digits. *)
Theorem fingerprint_deterministic_total (image_msg image_msg' : bytes) :
  image_msg = image_msg' ->
  SHA256.hexdigest image_msg = SHA256.hexdigest image_msg' /\
  state_256bit (SHA256.digest image_msg) /\
  String.length (SHA256.hexdigest image_msg) = 64%nat /\
  forallb is_hex_char (list_ascii_of_string (SHA256.hexdigest image_msg)) = true.
Proof.
  intros <-. split_and!.
  - reflexivity.
  - apply digest_256bit.
  - unfold SHA256.hexdigest, SHA256.hex_of_state. by rewrite !hex32_length.
  - unfold SHA256.hexdigest, SHA256.hex_of_state. by repeat apply hex32_is_hex.
Qed.



Lemma run_pair {A} (m : M A) (w : world) (a : A) :
  fst (m w) = Ok a -> m w = (Ok a, snd (m w)).
Proof. destruct (m w) as [r w1]. by intros [= ->]. Qed.

(** The embedding of SHA-256 on the test vectors of FIPS 180-4: the empty
    message and "abc". *)
Example empty_fingerprint :
  SHA256.hexdigest [] =
  "e3b0c44298fc1c149afbf4c8996fb92427ae41e4649b934ca495991b7852b855".
Proof. vm_compute. reflexivity. Qed.

Example abc_fingerprint :
  SHA256.hexdigest (list_byte_of_string "abc") =
  "ba7816bf8f01cfea414140de5dae2223b00361a396177a9cb410ff61f20015ad".
Proof. vm_compute. reflexivity. Qed.

Example hello_fingerprint : SHA256.hexdigest Scenario.hello = Scenario.hello_digest.
Proof. vm_compute. reflexivity. Qed.

Example first_run :
  let w1 := snd (Scenario.run Scenario.fresh) in
  fst (Scenario.run Scenario.fresh) = Ok tt /\
  map_to_list (files w1) = [(Scenario.image_path, Scenario.hello)] /\
  catalog Scenario.db_path w1 =
    [[Sqlite.Text "C:\imgs\apod_images.db"; Sqlite.Text "C:\imgs\pic.jpg";
      Sqlite.Text "4"; Sqlite.Text Scenario.hello_digest]].
Proof. vm_compute. auto. Qed.

(** Images that are not stored apart from SQLite's files: one named like the
    journal of the database; and, where the file system ignores case, one
    named like the database file in capitals, which is another file where
    names are compared exactly. *)
Example images_not_apart :
  image_apart (Scenario.machine Scenario.args Scenario.journal_url Scenario.hello ∅ ∅)
    = false /\
  image_apart (Scenario.machine Scenario.args Scenario.capitals_db_url Scenario.hello ∅ ∅)
    = true /\
  image_apart (Scenario.caseless
                 (Scenario.machine Scenario.args Scenario.capitals_db_url Scenario.hello
                    ∅ ∅))
    = false.
Proof. vm_compute. auto. Qed.

(** Where the file system ignores case, an image named PIC.JPG replaces the
    content of the file stored as pic.jpg. *)
Example capitals_name_the_same_file :
  let w1 := snd (Scenario.run (Scenario.caseless Scenario.fresh)) in
  let w2 := snd (Scenario.run
                   (Scenario.caseless
                      (Scenario.again Scenario.capitals_url Scenario.other w1))) in
  file_at w1 "C:\imgs\pic.jpg" = Some Scenario.hello /\
  file_at w2 "C:\imgs\pic.jpg" = Some Scenario.other /\
  file_at w2 "C:\imgs\PIC.JPG" = Some Scenario.other /\
  length (map_to_list (files w2)) = 1%nat.
Proof. vm_compute. auto. Qed.

(** C1.  At a catalog that holds a row whose SHA_256 column is exactly the
    digest asked for, and whose query returns that row, the duplicate check
    answers [False]. *)
Theorem image_already_in_db_misses_stored_digest :
  let w1 := snd (Scenario.run Scenario.fresh) in
  rows_with_digest Scenario.hello_digest (catalog Scenario.db_path w1) =
    [[Sqlite.Text Scenario.db_path; Sqlite.Text Scenario.image_path;
      Sqlite.Text "4"; Sqlite.Text Scenario.hello_digest]] /\
  select_digests (database_at Scenario.db_path w1) =
    inr [[Sqlite.Text Scenario.hello_digest]] /\
  fst (image_already_in_db Scenario.db_path Scenario.hello_digest w1) =
    Ok (Some false).
Proof. vm_compute. auto. Qed.

(** C2, counterexample.  Two invocations that both return normally, the
    second downloading other bytes from a URL with the same file name: the
    older row still names the file, which now holds the newer bytes, so the
    rows no longer match the files. *)
Lemma overwritten_file_breaks_row_file_agreement :
  let w1 := snd (Scenario.run Scenario.fresh) in
  let w2 := snd (Scenario.run (Scenario.again Scenario.later_url Scenario.other w1)) in
  fst (Scenario.run Scenario.fresh) = Ok tt /\
  fst (Scenario.run (Scenario.again Scenario.later_url Scenario.other w1)) = Ok tt /\
  ~ (one_row_per_digest Scenario.db_path w2 /\ rows_match_files Scenario.db_path w2).
Proof.
  cbv zeta. split_and!; [by vm_compute | by vm_compute |].
  intros [_ H].
  set (w2 := snd (Scenario.run (Scenario.again _ _ _))) in *.
  assert (Hcat : catalog Scenario.db_path w2 =
            [[Sqlite.Text Scenario.db_path; Sqlite.Text Scenario.image_path;
              Sqlite.Text "4"; Sqlite.Text Scenario.hello_digest];
             [Sqlite.Text Scenario.db_path; Sqlite.Text Scenario.image_path;
              Sqlite.Text "14";
              Sqlite.Text (SHA256.hexdigest Scenario.other)]])
    by (vm_compute; reflexivity).
  assert (Hfile : file_at w2 Scenario.image_path = Some Scenario.other)
    by (vm_compute; reflexivity).
  destruct (H [Sqlite.Text Scenario.db_path; Sqlite.Text Scenario.image_path;
               Sqlite.Text "4"; Sqlite.Text Scenario.hello_digest])
    as (p & b & Hp & Hb & _ & Hd).
  { rewrite Hcat. apply list_elem_of_here. }
  injection Hp as <-. rewrite Hfile in Hb. injection Hb as <-.
  vm_compute in Hd. discriminate.
Qed.

(** C3.  A second invocation with the same bytes and the same directory
    does not take the cached branch: the file is written again and a second
    row with the same digest is added. *)
Theorem second_run_stores_again :
  let w1 := snd (Scenario.run Scenario.fresh) in
  let w2 := snd (Scenario.run (Scenario.again Scenario.pic_url Scenario.hello w1)) in
  fst (Scenario.run (Scenario.again Scenario.pic_url Scenario.hello w1)) = Ok tt /\
  FileWrite Scenario.image_path ∈ events w2 /\
  length (rows_with_digest Scenario.hello_digest (catalog Scenario.db_path w1)) = 1%nat /\
  length (rows_with_digest Scenario.hello_digest (catalog Scenario.db_path w2)) = 2%nat.
Proof.
  cbv zeta. split_and!; try by vm_compute.
  assert (events (snd (Scenario.run (Scenario.again Scenario.pic_url Scenario.hello
                                       (snd (Scenario.run Scenario.fresh))))) =
          [DbConnect Scenario.db_path; HttpGet api_url; HttpGet Scenario.pic_url;
           DbConnect Scenario.db_path; FileWrite Scenario.image_path;
           DbConnect Scenario.db_path; SetWallpaper Scenario.image_path]) as ->
    by (vm_compute; reflexivity).
  set_solver.
Qed.

(** C5.  The size recorded for five downloaded bytes is 4, and for an empty
    download it is -1; the stored files hold five bytes and none. *)
Theorem recorded_size_is_one_less_than_stored :
  let w1 := snd (Scenario.run Scenario.fresh) in
  let w0 := snd (Scenario.run (Scenario.machine Scenario.args Scenario.pic_url [] ∅ ∅)) in
  (length <$> files w1 !! Scenario.image_path) = Some 5%nat /\
  map row_size (catalog Scenario.db_path w1) = [Sqlite.Text "4"] /\
  (length <$> files w0 !! Scenario.image_path) = Some 0%nat /\
  map row_size (catalog Scenario.db_path w0) = [Sqlite.Text "-1"].
Proof. vm_compute. auto. Qed.

(** C6.  Invoked for the date 2022-03-11, the script stores the path of the
    database file in the row's date column. *)
Theorem date_column_holds_db_path :
  let w1 := snd (Scenario.run Scenario.fresh) in
  nth 2 (argv Scenario.fresh) "" = "2022-03-11" /\
  fst (get_apod_date Scenario.fresh) = Ok "2022-03-11" /\
  map row_date (catalog Scenario.db_path w1) = [Sqlite.Text "C:\imgs\apod_images.db"].
Proof. vm_compute. auto. Qed.

(** C4, counterexample.  The catalog already holds a row with the digest;
    [add_image_to_db] is called with that digest and returns normally,
    leaving two rows with it. *)
Lemma add_image_to_db_accepts_duplicate_digest :
  let w1 := snd (Scenario.run Scenario.fresh) in
  let r := add_image_to_db Scenario.db_path Scenario.image_path 4
             Scenario.hello_digest w1 in
  length (rows_with_digest Scenario.hello_digest (catalog Scenario.db_path w1)) = 1%nat /\
  fst r = Ok tt /\
  length (rows_with_digest Scenario.hello_digest (catalog Scenario.db_path (snd r)))
    = 2%nat.
Proof. vm_compute. auto. Qed.


(** *** Witnesses *)

(** Two invocations on a file system that ignores case: the first stores
    pic.jpg, the second an image named PIC.JPG, which is the same file. *)
Lemma runs_keep_cache_consistent_witness :
  let w0 := Scenario.caseless Scenario.fresh in
  let w1 := snd (Scenario.run w0) in
  let w1' := Scenario.caseless
               (Scenario.again Scenario.capitals_url Scenario.other w1) in
  let w2 := snd (Scenario.run w1') in
  cache_consistent (join "C:\imgs" "apod_images.db") w0 /\
  runs "C:\imgs" w0 w2 /\
  cache_consistent (join "C:\imgs" "apod_images.db") w2.
Proof.
  cbv zeta.
  set (w0 := Scenario.caseless Scenario.fresh).
  set (w1' := Scenario.caseless
                (Scenario.again Scenario.capitals_url Scenario.other
                   (snd (Scenario.run w0)))).
  assert (H0 : cache_consistent (join "C:\imgs" "apod_images.db") w0)
    by (vm_compute; exact I).
  assert (Hruns : runs "C:\imgs" w0 (snd (Scenario.run w1'))).
  { eapply (runs_step _ _ (snd (Scenario.run w0)) w1').
    - eapply (runs_step _ _ w0 w0).
      + apply runs_nil.
      + reflexivity.
      + reflexivity.
      + reflexivity.
      + reflexivity.
      + vm_compute. reflexivity.
      + apply run_pair. vm_compute. reflexivity.
    - vm_compute. reflexivity.
    - vm_compute. reflexivity.
    - vm_compute. reflexivity.
    - reflexivity.
    - vm_compute. reflexivity.
    - apply run_pair. vm_compute. reflexivity. }
  split; [exact H0|]. split; [exact Hruns|].
  exact (runs_keep_cache_consistent _ _ _ H0 Hruns).
Defined.

Lemma add_image_to_db_always_appends_witness :
  let w1 := snd (Scenario.run Scenario.fresh) in
  let t := Sqlite.Table apod_images_columns
             [[Sqlite.Text Scenario.db_path; Sqlite.Text Scenario.image_path;
               Sqlite.Text "4"; Sqlite.Text Scenario.hello_digest]] in
  apod_table Scenario.db_path w1 = Some t /\
  Sqlite.tbl_columns t = apod_images_columns /\
  exists w',
    add_image_to_db Scenario.db_path Scenario.image_path 4 Scenario.hello_digest w1
      = (Ok tt, w') /\
    catalog Scenario.db_path w' =
      Sqlite.tbl_rows t ++
      [[Sqlite.Text Scenario.db_path; Sqlite.Text Scenario.image_path;
        Sqlite.Text (str_of_int 4); Sqlite.Text Scenario.hello_digest]] /\
    files w' = files w1.
Proof.
  cbv zeta.
  assert (Ht : apod_table Scenario.db_path (snd (Scenario.run Scenario.fresh)) =
               Some (Sqlite.Table apod_images_columns
                       [[Sqlite.Text Scenario.db_path; Sqlite.Text Scenario.image_path;
                         Sqlite.Text "4"; Sqlite.Text Scenario.hello_digest]]))
    by (vm_compute; reflexivity).
  split; [exact Ht|]. split; [reflexivity|].
  exact (add_image_to_db_always_appends _ _ _ _ _ _ Ht eq_refl).
Defined.


Lemma fingerprint_deterministic_total_witness :
  ([] : bytes) = [] /\
  SHA256.hexdigest [] = SHA256.hexdigest [] /\
  state_256bit (SHA256.digest []) /\
  String.length (SHA256.hexdigest []) = 64%nat /\
  forallb is_hex_char (list_ascii_of_string (SHA256.hexdigest [])) = true.
Proof.
  split; [reflexivity|]. exact (fingerprint_deterministic_total [] [] eq_refl).
Defined.

Lemma get_apod_date_spec_witness :
  let no_date := Scenario.machine ["apod_desktop.py"; "C:\imgs"]
                   Scenario.pic_url Scenario.hello ∅ ∅ in
  let bad_date := Scenario.machine ["apod_desktop.py"; "C:\imgs"; "11/03/2022"]
                    Scenario.pic_url Scenario.hello ∅ ∅ in
  Strptime.valid_date (today Scenario.fresh) = true /\
  (exists w1, get_apod_date Scenario.fresh = (Ok "2022-03-11", w1) /\
              quiet Scenario.fresh w1 []) /\
  (exists w1, get_apod_date Failures.fullwidth_date = (Ok "２０２２-03-11", w1) /\
              quiet Failures.fullwidth_date w1 []) /\
  (exists w', Scenario.run bad_date =
                (Raise (SystemExit "Script execution aborted"), w') /\
              quiet bad_date w' []) /\
  (exists w1, get_apod_date no_date = (Ok "2022-03-12", w1)).
Proof.
  cbv zeta. split; [reflexivity|]. split_and!.
  - exact (get_apod_date_spec Scenario.fresh eq_refl).
  - exact (get_apod_date_spec Failures.fullwidth_date eq_refl).
  - exact (proj2 (get_apod_date_spec (os_path := NtPath.ntpath)
                    (Scenario.machine ["apod_desktop.py"; "C:\imgs"; "11/03/2022"]
                       Scenario.pic_url Scenario.hello ∅ ∅) eq_refl)).
  - destruct (get_apod_date_spec (os_path := NtPath.ntpath)
                (Scenario.machine ["apod_desktop.py"; "C:\imgs"]
                   Scenario.pic_url Scenario.hello ∅ ∅) eq_refl)
      as (w1 & Hrun & _).
    exists w1. exact Hrun.
Defined.

Lemma get_image_path_depends_on_basename_and_dir_witness :
  basename (normpath Scenario.pic_url) = basename (normpath Scenario.later_url) /\
  get_image_path Scenario.pic_url "C:\imgs" = "C:\imgs\pic.jpg" /\
  get_image_path Scenario.later_url "C:\imgs" =
    get_image_path Scenario.pic_url "C:\imgs".
Proof.
  split; [reflexivity|].
  exact (get_image_path_depends_on_basename_and_dir (os_path := NtPath.ntpath)
           Scenario.pic_url Scenario.later_url "C:\imgs" eq_refl).
Defined.

(** *** Witnesses of the further properties *)

Lemma main_aborts_without_images_directory_witness :
  ((length (argv Failures.no_arguments) < 2)%nat \/
   isdir Failures.no_arguments (nth 1 (argv Failures.no_arguments) "") = false) /\
  exists w',
    main Failures.no_arguments = (Raise (SystemExit "Script execution aborted"), w') /\
    files w' = files Failures.no_arguments /\ dbs w' = dbs Failures.no_arguments /\
    events w' = events Failures.no_arguments.
Proof.
  assert (H : (length (argv Failures.no_arguments) < 2)%nat \/
              isdir Failures.no_arguments (nth 1 (argv Failures.no_arguments) "") = false)
    by (left; vm_compute; lia).
  split; [exact H|]. exact (main_aborts_without_images_directory _ H).
Defined.

Lemma main_returns_witness :
  let w := Failures.image_missing in
  let r := Response 200 [] (Some {[ "url" := Scenario.pic_url ]}) in
  let r' := Response 404 Failures.not_found_page None in
  (2 <= length (argv w))%nat /\
  isdir w (image_dir w) = true /\
  date_argument_ok w /\
  script_schema (db_path_of w) w /\
  http w api_url (api_params (requested_date w)) = Some r /\
  json r = Some {[ "url" := Scenario.pic_url ]} /\
  ({[ "url" := Scenario.pic_url ]} : gmap string string) !! "url" = Some Scenario.pic_url /\
  http w Scenario.pic_url [] = Some r' /\
  writable w (get_image_path Scenario.pic_url (image_dir w)) = true /\
  stored_apart w (db_path_of w) (get_image_path Scenario.pic_url (image_dir w)) = true /\
  exists w',
    main w = (Ok tt, w') /\
    file_at w' (get_image_path Scenario.pic_url (image_dir w)) = Some (content r') /\
    catalog (db_path_of w) w' =
      catalog (db_path_of w) w ++
      [[Sqlite.Text (db_path_of w);
        Sqlite.Text (get_image_path Scenario.pic_url (image_dir w));
        Sqlite.Text (str_of_int (-1 + py_len (content r')));
        Sqlite.Text (SHA256.hexdigest (content r'))]].
Proof.
  cbv zeta.
  assert (H1 : (2 <= length (argv Failures.image_missing))%nat) by (vm_compute; lia).
  assert (H2 : isdir Failures.image_missing (image_dir Failures.image_missing) = true)
    by (vm_compute; reflexivity).
  assert (H3 : date_argument_ok Failures.image_missing)
    by (intros _; vm_compute; eauto).
  assert (H4 : script_schema (db_path_of Failures.image_missing) Failures.image_missing)
    by (vm_compute; exact I).
  assert (H5 : http Failures.image_missing api_url
                 (api_params (requested_date Failures.image_missing)) =
               Some (Response 200 [] (Some {[ "url" := Scenario.pic_url ]})))
    by reflexivity.
  assert (H7 : ({[ "url" := Scenario.pic_url ]} : gmap string string) !! "url" =
               Some Scenario.pic_url) by (vm_compute; reflexivity).
  assert (H8 : http Failures.image_missing Scenario.pic_url [] =
               Some (Response 404 Failures.not_found_page None)) by reflexivity.
  assert (H9 : writable Failures.image_missing
                 (get_image_path Scenario.pic_url (image_dir Failures.image_missing)) =
               true) by reflexivity.
  assert (H10 : stored_apart Failures.image_missing (db_path_of Failures.image_missing)
                  (get_image_path Scenario.pic_url (image_dir Failures.image_missing)) =
                true) by (vm_compute; reflexivity).
  split_and!; try assumption; [reflexivity|].
  exact (main_returns _ _ _ _ _ H1 H2 H3 H4 H5 eq_refl H7 H8 H9 H10).
Defined.

Lemma main_write_failure_adds_no_row_witness :
  let w := Failures.read_only in
  let r := Response 200 [] (Some {[ "url" := Scenario.pic_url ]}) in
  let r' := Response 200 Scenario.hello None in
  (2 <= length (argv w))%nat /\
  isdir w (image_dir w) = true /\
  date_argument_ok w /\
  script_schema (db_path_of w) w /\
  http w api_url (api_params (requested_date w)) = Some r /\
  json r = Some {[ "url" := Scenario.pic_url ]} /\
  ({[ "url" := Scenario.pic_url ]} : gmap string string) !! "url" = Some Scenario.pic_url /\
  http w Scenario.pic_url [] = Some r' /\
  writable w (get_image_path Scenario.pic_url (image_dir w)) = false /\
  exists w',
    main w = (Raise (OSError (get_image_path Scenario.pic_url (image_dir w))), w') /\
    files w' = files w /\
    catalog (db_path_of w) w' = catalog (db_path_of w) w /\
    events w' = events w ++
      [DbConnect (db_path_of w); HttpGet api_url; HttpGet Scenario.pic_url;
       DbConnect (db_path_of w)].
Proof.
  cbv zeta.
  assert (H1 : (2 <= length (argv Failures.read_only))%nat) by (vm_compute; lia).
  assert (H2 : isdir Failures.read_only (image_dir Failures.read_only) = true)
    by (vm_compute; reflexivity).
  assert (H3 : date_argument_ok Failures.read_only)
    by (intros _; vm_compute; eauto).
  assert (H4 : script_schema (db_path_of Failures.read_only) Failures.read_only)
    by (vm_compute; exact I).
  assert (H5 : http Failures.read_only api_url
                 (api_params (requested_date Failures.read_only)) =
               Some (Response 200 [] (Some {[ "url" := Scenario.pic_url ]})))
    by reflexivity.
  assert (H7 : ({[ "url" := Scenario.pic_url ]} : gmap string string) !! "url" =
               Some Scenario.pic_url) by (vm_compute; reflexivity).
  assert (H8 : http Failures.read_only Scenario.pic_url [] =
               Some (Response 200 Scenario.hello None)) by reflexivity.
  assert (H9 : writable Failures.read_only
                 (get_image_path Scenario.pic_url (image_dir Failures.read_only)) =
               false) by reflexivity.
  split_and!; try assumption; [reflexivity|].
  exact (main_write_failure_adds_no_row _ _ _ _ _ H1 H2 H3 H4 H5 eq_refl H7 H8 H9).
Defined.

Lemma main_api_failure_witness :
  let w := Failures.api_error in
  let r := Response 403 [] (Some {[ "error" := "API_KEY_INVALID" ]}) in
  (2 <= length (argv w))%nat /\
  isdir w (image_dir w) = true /\
  date_argument_ok w /\
  (http w api_url (api_params (requested_date w)) = Some r /\
   json r = Some {[ "error" := "API_KEY_INVALID" ]} /\
   ({[ "error" := "API_KEY_INVALID" ]} : gmap string string) !! "url" = None) /\
  exists w',
    main w = (Raise (KeyError "url"), w') /\
    files w' = files w /\
    catalog (db_path_of w) w' = catalog (db_path_of w) w /\
    events w' = events w ++ [DbConnect (db_path_of w); HttpGet api_url].
Proof.
  cbv zeta.
  assert (H1 : (2 <= length (argv Failures.api_error))%nat) by (vm_compute; lia).
  assert (H2 : isdir Failures.api_error (image_dir Failures.api_error) = true)
    by (vm_compute; reflexivity).
  assert (H3 : date_argument_ok Failures.api_error)
    by (intros _; vm_compute; eauto).
  assert (H5 : http Failures.api_error api_url
                 (api_params (requested_date Failures.api_error)) =
               Some (Response 403 [] (Some {[ "error" := "API_KEY_INVALID" ]})))
    by reflexivity.
  assert (H7 : ({[ "error" := "API_KEY_INVALID" ]} : gmap string string) !! "url" = None)
    by (vm_compute; reflexivity).
  split_and!; try assumption; [reflexivity|].
  apply (main_api_failure _ _ H1 H2 H3).
  right. right. eexists _, _. split_and!; [exact H5 | reflexivity | exact H7 | reflexivity].
Defined.

Lemma main_download_failure_witness :
  let w := Failures.image_unreachable in
  let r := Response 200 [] (Some {[ "url" := Scenario.pic_url ]}) in
  (2 <= length (argv w))%nat /\
  isdir w (image_dir w) = true /\
  date_argument_ok w /\
  http w api_url (api_params (requested_date w)) = Some r /\
  json r = Some {[ "url" := Scenario.pic_url ]} /\
  ({[ "url" := Scenario.pic_url ]} : gmap string string) !! "url" = Some Scenario.pic_url /\
  http w Scenario.pic_url [] = None /\
  exists w',
    main w = (Raise (ConnectionError Scenario.pic_url), w') /\
    files w' = files w /\
    catalog (db_path_of w) w' = catalog (db_path_of w) w /\
    events w' = events w ++
      [DbConnect (db_path_of w); HttpGet api_url; HttpGet Scenario.pic_url].
Proof.
  cbv zeta.
  assert (H1 : (2 <= length (argv Failures.image_unreachable))%nat) by (vm_compute; lia).
  assert (H2 : isdir Failures.image_unreachable (image_dir Failures.image_unreachable)
               = true) by (vm_compute; reflexivity).
  assert (H3 : date_argument_ok Failures.image_unreachable)
    by (intros _; vm_compute; eauto).
  assert (H5 : http Failures.image_unreachable api_url
                 (api_params (requested_date Failures.image_unreachable)) =
               Some (Response 200 [] (Some {[ "url" := Scenario.pic_url ]})))
    by reflexivity.
  assert (H7 : ({[ "url" := Scenario.pic_url ]} : gmap string string) !! "url" =
               Some Scenario.pic_url) by (vm_compute; reflexivity).
  assert (H8 : http Failures.image_unreachable Scenario.pic_url [] = None)
    by reflexivity.
  split_and!; try assumption; [reflexivity|].
  exact (main_download_failure _ _ _ _ H1 H2 H3 H5 eq_refl H7 H8).
Defined.

Lemma main_appends_one_row_witness :
  let w := Scenario.fresh in
  let w' := snd (Scenario.run Scenario.fresh) in
  Scenario.run w = (Ok tt, w') /\
  image_apart w = true /\
  script_schema (db_path_of w) w /\
  exists url msg row,
    named_url w = Some url /\
    (exists r, http w url [] = Some r /\ msg = content r) /\
    catalog (db_path_of w) w' = catalog (db_path_of w) w ++ [row] /\
    file_at w' (get_image_path url (image_dir w)) = Some msg /\
    (script_schema (db_path_of w) w ->
     row = [Sqlite.Text (db_path_of w); Sqlite.Text (get_image_path url (image_dir w));
            Sqlite.Text (str_of_int (-1 + py_len msg));
            Sqlite.Text (SHA256.hexdigest msg)]).
Proof.
  cbv zeta.
  assert (Hrun : Scenario.run Scenario.fresh = (Ok tt, snd (Scenario.run Scenario.fresh)))
    by (apply run_pair; vm_compute; reflexivity).
  assert (Hapart : image_apart Scenario.fresh = true) by (vm_compute; reflexivity).
  split; [exact Hrun|]. split; [exact Hapart|]. split; [vm_compute; exact I|].
  exact (main_appends_one_row _ _ Hrun Hapart).
Defined.

Lemma main_sets_wallpaper_to_saved_file_witness :
  let w := Scenario.fresh in
  let w' := snd (Scenario.run Scenario.fresh) in
  Scenario.run w = (Ok tt, w') /\
  image_apart w = true /\
  exists url msg,
    named_url w = Some url /\
    (exists r, http w url [] = Some r /\ msg = content r) /\
    events w' = events w ++
      [DbConnect (db_path_of w); HttpGet api_url; HttpGet url;
       DbConnect (db_path_of w); FileWrite (get_image_path url (image_dir w));
       DbConnect (db_path_of w); SetWallpaper (get_image_path url (image_dir w))] /\
    (image_apart w = true ->
     file_at w' (get_image_path url (image_dir w)) = Some msg).
Proof.
  cbv zeta.
  assert (Hrun : Scenario.run Scenario.fresh = (Ok tt, snd (Scenario.run Scenario.fresh)))
    by (apply run_pair; vm_compute; reflexivity).
  split; [exact Hrun|]. split; [vm_compute; reflexivity|].
  exact (main_sets_wallpaper_to_saved_file _ _ Hrun).
Defined.

Lemma runs_only_append_witness :
  let w1 := snd (Scenario.run Scenario.fresh) in
  let w2 := snd (Scenario.run (Scenario.again Scenario.pic_url Scenario.hello w1)) in
  script_schema (join "C:\imgs" "apod_images.db") Scenario.fresh /\
  runs "C:\imgs" Scenario.fresh w2 /\
  exists added,
    catalog (join "C:\imgs" "apod_images.db") w2 =
    catalog (join "C:\imgs" "apod_images.db") Scenario.fresh ++ added /\
    script_schema (join "C:\imgs" "apod_images.db") w2 /\
    rows_have_files w2 added.
Proof.
  cbv zeta.
  assert (H0 : script_schema (join "C:\imgs" "apod_images.db") Scenario.fresh)
    by (vm_compute; exact I).
  assert (Hruns : runs "C:\imgs" Scenario.fresh
            (snd (Scenario.run (Scenario.again Scenario.pic_url Scenario.hello
                                  (snd (Scenario.run Scenario.fresh)))))).
  { eapply (runs_step _ _ (snd (Scenario.run Scenario.fresh))
              (Scenario.again Scenario.pic_url Scenario.hello
                 (snd (Scenario.run Scenario.fresh)))).
    - eapply (runs_step _ _ Scenario.fresh Scenario.fresh).
      + apply runs_nil.
      + reflexivity.
      + reflexivity.
      + reflexivity.
      + reflexivity.
      + vm_compute. reflexivity.
      + apply run_pair. vm_compute. reflexivity.
    - vm_compute. reflexivity.
    - vm_compute. reflexivity.
    - vm_compute. reflexivity.
    - reflexivity.
    - vm_compute. reflexivity.
    - apply run_pair. vm_compute. reflexivity. }
  split; [exact H0|]. split; [exact Hruns|].
  exact (runs_only_append _ _ _ H0 Hruns).
Defined.

Lemma main_returns_only_if_witness :
  Scenario.run Scenario.fresh = (Ok tt, snd (Scenario.run Scenario.fresh)) /\
  (2 <= length (argv Scenario.fresh))%nat /\
  isdir Scenario.fresh (image_dir Scenario.fresh) = true /\
  date_argument_ok Scenario.fresh /\
  exists r obj url r',
    http Scenario.fresh api_url (api_params (requested_date Scenario.fresh)) = Some r /\
    json r = Some obj /\
    obj !! "url" = Some url /\
    http Scenario.fresh url [] = Some r' /\
    writable Scenario.fresh (get_image_path url (image_dir Scenario.fresh)) = true.
Proof.
  assert (Hrun : Scenario.run Scenario.fresh = (Ok tt, snd (Scenario.run Scenario.fresh)))
    by (apply run_pair; vm_compute; reflexivity).
  split; [exact Hrun|]. exact (main_returns_only_if _ _ Hrun).
Defined.
